(** * pi-pico-temperature-logger: the sampler, the classifier, the router

    A shallow embedding of [src/main.py] (server version 0.2.1) and of its
    earlier copy [src/temperature_logger.py] (version 0.1).  The two files
    share most of their text; what they share is embedded once, and the
    places where they differ (the indicator loop of [cache_temp] and the
    last line of [format_times]) are embedded per file in [Module Main] and
    [Module TemperatureLogger].

    Temperatures are floats in the source.  The code only compares them with
    small integer literals and with each other and selects one of two values
    ([min], [max]); on finite floats these operations are exact, so a reading
    is modelled as the rational number it denotes ([Q]).  The analog read in
    [read_temp] is the hardware input: a sampling tick takes the fahrenheit
    value as its argument. *)

From Stdlib Require Import ZArith QArith Lia Lqa Ascii String.
From stdpp Require Import base option list strings gmap pretty.

Open Scope Z_scope.

(** ** The fragment of Python the source uses *)

Module Py.

Inductive Exn :=
| IndexError | AttributeError | TypeError | ValueError | KeyError.

Inductive result (A : Type) :=
| Ok (a : A)
| Raise (e : Exn).
Arguments Ok {A} a.
Arguments Raise {A} e.

(** [a < b] on numbers. *)
Definition lt (a b : Q) : bool :=
  Qnum a * Zpos (Qden b) <? Qnum b * Zpos (Qden a).

(** [min(a, b)] and [max(a, b)]: the first argument is kept unless the
    second is strictly better. *)
Definition min (a b : Q) : Q := if lt b a then b else a.
Definition max (a b : Q) : Q := if lt a b then b else a.

(** [l[i]] for a non-negative [i]. *)
Definition subscript {A} (l : list A) (i : nat) : result A :=
  match l !! i with
  | Some x => Ok x
  | None => Raise IndexError
  end.

(** [l.index(x)]: the first position holding a value equal to [x]. *)
Fixpoint index {A} `{EqDecision A} (x : A) (l : list A) : result nat :=
  match l with
  | [] => Raise ValueError
  | y :: l' =>
      if decide (y = x) then Ok 0%nat
      else match index x l' with
           | Ok i => Ok (S i)
           | Raise e => Raise e
           end
  end.

(** [enumerate(l)]. *)
Fixpoint enumerate_from {A} (i : nat) (l : list A) : list (nat * A) :=
  match l with
  | [] => []
  | x :: l' => (i, x) :: enumerate_from (S i) l'
  end.
Definition enumerate {A} (l : list A) : list (nat * A) := enumerate_from 0 l.

(** [range(n)]. *)
Definition range (n : nat) : list nat := seq 0 n.

(** [divmod(a, b)] for integers: floor division and its remainder. *)
Definition divmod (a b : Z) : Z * Z := (a / b, a mod b).

(** [pat in s] on strings. *)
Fixpoint contains (pat s : string) : bool :=
  String.prefix pat s ||
  match s with
  | EmptyString => false
  | String _ s' => contains pat s'
  end.

(** [s.split(sep)] for a one-character separator: a cut at every
    occurrence, empty fields kept. *)
Fixpoint split (sep : ascii) (s : string) : list string :=
  match s with
  | EmptyString => [EmptyString]
  | String c s' =>
      if Ascii.eqb c sep then EmptyString :: split sep s'
      else match split sep s' with
           | [] => [String c EmptyString]
           | w :: ws => String c w :: ws
           end
  end.

(** The two-character string CR LF. *)
Definition CRLF : string :=
  String (ascii_of_nat 13) (String (ascii_of_nat 10) EmptyString).

End Py.

Import Py.

(** ** Indicators *)

Inductive Pin :=
| watchdog_led
| http_connection_led
| user_led
| temp_low_crit_thresh_led
| temp_low_warn_thresh_led
| temp_ok_thresh_led
| temp_high_warn_thresh_led
| temp_high_crit_thresh_led.

(** The output level of each of the eight pins. *)
Record Pins := mkPins {
  lvl_watchdog : bool;
  lvl_http_connection : bool;
  lvl_user : bool;
  lvl_low_crit : bool;
  lvl_low_warn : bool;
  lvl_ok : bool;
  lvl_high_warn : bool;
  lvl_high_crit : bool
}.

Definition level (p : Pin) (h : Pins) : bool :=
  match p with
  | watchdog_led => lvl_watchdog h
  | http_connection_led => lvl_http_connection h
  | user_led => lvl_user h
  | temp_low_crit_thresh_led => lvl_low_crit h
  | temp_low_warn_thresh_led => lvl_low_warn h
  | temp_ok_thresh_led => lvl_ok h
  | temp_high_warn_thresh_led => lvl_high_warn h
  | temp_high_crit_thresh_led => lvl_high_crit h
  end.

(** [p.value(v)]. *)
Definition pin_value (p : Pin) (v : bool) (h : Pins) : Pins :=
  let '(mkPins a b c d e f g i) := h in
  match p with
  | watchdog_led => mkPins v b c d e f g i
  | http_connection_led => mkPins a v c d e f g i
  | user_led => mkPins a b v d e f g i
  | temp_low_crit_thresh_led => mkPins a b c v e f g i
  | temp_low_warn_thresh_led => mkPins a b c d v f g i
  | temp_ok_thresh_led => mkPins a b c d e v g i
  | temp_high_warn_thresh_led => mkPins a b c d e f v i
  | temp_high_crit_thresh_led => mkPins a b c d e f g v
  end.

(** [p.toggle()]. *)
Definition pin_toggle (p : Pin) (h : Pins) : Pins :=
  pin_value p (negb (level p h)) h.

(** Lines 34-42: every pin is driven low at import time. *)
Definition pins_init : Pins :=
  mkPins false false false false false false false false.

(** ** The server object *)

Record PicoServer := mkPicoServer {
  watchdog_val : Z;
  temp_f_latest : Q;
  temp_f_min : Q;
  temp_f_max : Q;
  thresh_times : list Z
}.

(** The class attributes of [PicoServer], then [__init__]. *)
Definition PicoServer_init : PicoServer :=
  {| watchdog_val := 0;
     temp_f_latest := 0;
     temp_f_min := 1000;
     temp_f_max := 0;
     thresh_times := [0; 0; 0; 0; 0] |}.

Record World := mkWorld {
  self : PicoServer;
  pins : Pins
}.

Definition world_init : World :=
  {| self := PicoServer_init; pins := pins_init |}.

(** ** Statements: state passing with exceptions

    A statement maps the world to the world it leaves behind and to either a
    value or the exception it raised.  What was written before a raise
    stays written. *)

Definition M (A : Type) : Type := World -> result A * World.

Definition ret {A} (a : A) : M A := fun w => (Ok a, w).

Definition raise {A} (e : Exn) : M A := fun w => (Raise e, w).

Definition bind {A B} (m : M A) (k : A -> M B) : M B :=
  fun w =>
    match m w with
    | (Ok a, w') => k a w'
    | (Raise e, w') => (Raise e, w')
    end.

Definition lift {A} (r : result A) : M A := fun w => (r, w).

Definition get_self : M PicoServer := fun w => (Ok (self w), w).

Definition put_self (s : PicoServer) : M unit :=
  fun w => (Ok tt, {| self := s; pins := pins w |}).

Definition modify_pins (f : Pins -> Pins) : M unit :=
  fun w => (Ok tt, {| self := self w; pins := f (pins w) |}).

Declare Scope py_scope.
Delimit Scope py_scope with py.
Notation "x <~ m ;; k" := (bind m (fun x => k))
  (at level 100, m at next level, right associativity) : py_scope.
Notation "m ;;; k" := (bind m (fun _ => k))
  (at level 100, right associativity) : py_scope.
Open Scope py_scope.

(** [for x in l: body x]. *)
Fixpoint for_each {A} (l : list A) (body : A -> M unit) : M unit :=
  match l with
  | [] => ret tt
  | x :: l' => body x ;;; for_each l' body
  end.

(** ** The threshold classifier (shared by both files) *)

Definition thresh_leds : list Pin :=
  [ temp_low_crit_thresh_led;
    temp_low_warn_thresh_led;
    temp_ok_thresh_led;
    temp_high_warn_thresh_led;
    temp_high_crit_thresh_led ].

Definition thresholds : list (Z * Z) :=
  [ (-40, 32); (32, 37); (37, 60); (60, 85); (86, 176) ].

(** [lambda range: range[0] < self.temp_f_latest < range[1]]. *)
Definition in_range (t : Q) (range : Z * Z) : bool :=
  Py.lt (inject_Z (fst range)) t && Py.lt t (inject_Z (snd range)).

(** [on_item = list(filter(..., thresholds))]. *)
Definition on_item (t : Q) : list (Z * Z) :=
  List.filter (in_range t) thresholds.

(** [on_idx = thresholds.index(on_item[0])]. *)
Definition on_idx (t : Q) : result nat :=
  match Py.subscript (on_item t) 0 with
  | Ok r => Py.index r thresholds
  | Raise e => Raise e
  end.

(** Lines 143-146: the latest reading and the running extrema. *)
Definition record_temp (t : Q) (s : PicoServer) : PicoServer :=
  let s1 := {| watchdog_val := watchdog_val s;
               temp_f_latest := t;
               temp_f_min := temp_f_min s;
               temp_f_max := temp_f_max s;
               thresh_times := thresh_times s |} in
  let s2 := {| watchdog_val := watchdog_val s1;
               temp_f_latest := temp_f_latest s1;
               temp_f_min := Py.min (temp_f_min s1) (temp_f_latest s1);
               temp_f_max := temp_f_max s1;
               thresh_times := thresh_times s1 |} in
  {| watchdog_val := watchdog_val s2;
     temp_f_latest := temp_f_latest s2;
     temp_f_min := temp_f_min s2;
     temp_f_max := Py.max (temp_f_max s2) (temp_f_latest s2);
     thresh_times := thresh_times s2 |}.

(** [self.thresh_times[idx] = self.thresh_times[idx] + 1]. *)
Definition bump_thresh_time (idx : nat) : M unit :=
  s <~ get_self ;;
  n <~ lift (Py.subscript (thresh_times s) idx) ;;
  put_self {| watchdog_val := watchdog_val s;
              temp_f_latest := temp_f_latest s;
              temp_f_min := temp_f_min s;
              temp_f_max := temp_f_max s;
              thresh_times := <[idx := n + 1]> (thresh_times s) |}.

(** Lines 143-165 of [cache_temp], the same in both files: store the
    reading, then classify it. *)
Definition sample (t : Q) : M nat :=
  s <~ get_self ;;
  put_self (record_temp t s) ;;;
  lift (on_idx t).

(** ** The dwell-time formatter *)

(** The body of [format_times] below its first line, with the text put in
    front of [out] for a non-zero week count left as a parameter: it is
    the one place where the two files differ. *)
Definition format_seconds (weeks_suffix : string) (seconds : Z) : string :=
  let '(minutes, seconds) := Py.divmod seconds 60 in
  let '(hours, minutes) := Py.divmod minutes 60 in
  let '(days, hours) := Py.divmod hours 24 in
  let '(weeks, days) := Py.divmod days 7 in
  let out := pretty seconds +:+ " secs" in
  let out := if 0 <? minutes then pretty minutes +:+ " mins " +:+ out else out in
  let out := if 0 <? hours then pretty hours +:+ " hours " +:+ out else out in
  let out := if 0 <? days then pretty days +:+ " days " +:+ out else out in
  let out := if 0 <? weeks then pretty weeks +:+ weeks_suffix +:+ out else out in
  out.

(** ** [src/main.py] *)

Module Main.

(** The objects the loop variables of [cache_temp] are bound to. *)
Inductive value :=
| VInt (n : nat)
| VPin (p : Pin).

(** [v == n] for an integer [n]; a [Pin] is equal to no integer. *)
Definition eq_int (v : value) (n : nat) : bool :=
  match v with
  | VInt m => Nat.eqb m n
  | VPin _ => false
  end.

(** [v.value(b)]: only a [Pin] has the attribute. *)
Definition call_value (v : value) (b : bool) : M unit :=
  match v with
  | VPin p => modify_pins (pin_value p b)
  | VInt _ => raise AttributeError
  end.

(** [self.thresh_times[v] = self.thresh_times[v] + 1]: a list is
    indexed by integers only. *)
Definition bump (v : value) : M unit :=
  match v with
  | VInt n => bump_thresh_time n
  | VPin _ => raise TypeError
  end.

(** Lines 166-169.  [enumerate] yields (position, element) pairs, so
    [for led,idx in enumerate(thresh_leds)] binds [led] to the position
    and [idx] to the pin. *)
Definition set_leds (on_idx : nat) : M unit :=
  for_each (Py.enumerate thresh_leds) (fun item =>
    let led := VInt (fst item) in
    let idx := VPin (snd item) in
    call_value led (eq_int idx on_idx) ;;;
    if eq_int idx on_idx then bump idx else ret tt).

(** One iteration of the [while True] of [cache_temp], up to its
    [await asyncio.sleep_ms(1000)]. *)
Definition cache_temp_body (t : Q) : M unit :=
  on_idx <~ sample t ;;
  set_leds on_idx.

(** [cache_temp] fed with the successive sensor readings; an exception
    leaves the loop. *)
Definition cache_temp (readings : list Q) : M unit :=
  for_each readings cache_temp_body.

(** Lines 88-105: [out = f"{weeks} weeks " + out]. *)
Definition format_times (idx : nat) (s : PicoServer) : result string :=
  match Py.subscript (thresh_times s) idx with
  | Ok seconds => Ok (format_seconds " weeks " seconds)
  | Raise e => Raise e
  end.

End Main.

(** ** [src/temperature_logger.py] *)

Module TemperatureLogger.

(** Lines 166-169:
    [for idx in range(len(thresh_leds)): thresh_leds[idx].value(idx==on_idx) ...]. *)
Definition set_leds (on_idx : nat) : M unit :=
  for_each (Py.range (length thresh_leds)) (fun idx =>
    led <~ lift (Py.subscript thresh_leds idx) ;;
    modify_pins (pin_value led (Nat.eqb idx on_idx)) ;;;
    if Nat.eqb idx on_idx then bump_thresh_time idx else ret tt).

Definition cache_temp_body (t : Q) : M unit :=
  on_idx <~ sample t ;;
  set_leds on_idx.

Definition cache_temp (readings : list Q) : M unit :=
  for_each readings cache_temp_body.

(** Lines 89-105: [out = "{} weeks".format(weeks) + out]. *)
Definition format_times (idx : nat) (s : PicoServer) : result string :=
  match Py.subscript (thresh_times s) idx with
  | Ok seconds => Ok (format_seconds " weeks" seconds)
  | Raise e => Raise e
  end.

End TemperatureLogger.

(** ** The watchdog *)

(** [blink_led(led=...)]: the wrapper toggles the pin, then runs the
    decorated function. *)
Definition blink_led {A} (led : Pin) (func : M A) : M A :=
  modify_pins (pin_toggle led) ;;; func.

Definition watchdog : M unit :=
  blink_led watchdog_led
    (s <~ get_self ;;
     put_self {| watchdog_val := watchdog_val s + 1;
                 temp_f_latest := temp_f_latest s;
                 temp_f_min := temp_f_min s;
                 temp_f_max := temp_f_max s;
                 thresh_times := thresh_times s |}).

(** ** Routes and handlers *)

Inductive Handler :=
| index_page
| led_on
| led_off
| garden_temp_page
| not_found.

(** The dict literal of [get_route], entries in source order. *)
Definition paths : gmap string Handler :=
  <["/notfound" := not_found]>
  (<["/garden_temps" := garden_temp_page]>
  (<["/method=%22post%22?toggle_led=Off" := led_off]>
  (<["/method=%22post%22?toggle_led=On" := led_on]>
  (<["/" := index_page]> ∅)))).

(** [paths[k]]. *)
Definition paths_item (k : string) : result Handler :=
  match paths !! k with
  | Some h => Ok h
  | None => Raise KeyError
  end.

Definition get_route (path : string) : result Handler :=
  match paths !! path with
  | None => paths_item "/notfound"
  | Some _ => paths_item path
  end.

(** What a handler does to the world, and the head of the response it
    writes (status line, content type, blank line); the markup that follows
    the head is a rendering of the state and is left out. *)
Definition head_200 : string :=
  "HTTP/1.0 200 OK" +:+ CRLF +:+ "Content-type: text/html" +:+ CRLF +:+ CRLF.
Definition head_404 : string :=
  "HTTP/1.0 404 Not Found" +:+ CRLF +:+ "Content-type: text/html" +:+ CRLF +:+ CRLF.

Definition run_handler (h : Handler) : M string :=
  match h with
  | index_page => ret head_200
  | garden_temp_page => ret head_200
  | led_on => modify_pins (pin_value user_led true) ;;; ret head_200
  | led_off => modify_pins (pin_value user_led false) ;;; ret head_200
  | not_found => ret head_404
  end.

(** ** The connection handler *)

(** How the read loop of [handle_client] ends. *)
Inductive Request :=
| Parsed (method path : string)
| Failed (e : Exn)
| Hangs.

(** Lines 280-286.  [lines] is what the client sends, one element per
    [readline()], already decoded; when it is used up the connection is at
    end of file, [readline()] returns the empty string from then on, and
    the loop never leaves. *)
Fixpoint read_request (lines : list string) (method path : string) : Request :=
  match lines with
  | [] => Hangs
  | req :: rest =>
      let assigned :=
        if Py.contains "HTTP/1.1" req then
          let req_type := Py.split " " req in
          match Py.subscript req_type 0 with
          | Ok m =>
              match Py.subscript req_type 1 with
              | Ok p => Ok (m, p)
              | Raise e => Raise e
              end
          | Raise e => Raise e
          end
        else Ok (method, path) in
      match assigned with
      | Ok (m, p) =>
          if String.eqb req CRLF then Parsed m p
          else read_request rest m p
      | Raise e => Failed e
      end
  end.

(** Lines 287-288: [route = self.get_route(path)], then the call of the
    route. *)
Definition respond (path : string) : M string :=
  route <~ lift (get_route path) ;;
  run_handler route.

(** The decorated [handle_client]: the wrapper of [blink_led] toggles the
    connection pin, then the body runs.  [None] when the body never gets
    past its read loop. *)
Definition handle_client (lines : list string) (w : World)
  : option (result string * World) :=
  let w1 := snd (modify_pins (pin_toggle http_connection_led) w) in
  match read_request lines "" "" with
  | Hangs => None
  | Failed e => Some (Raise e, w1)
  | Parsed method path => Some (respond path w1)
  end.

(** ** The duties under the cooperative scheduler

    A task runs alone from one [await] to the next.  The pieces that write
    the world are: one cycle of [watchdog_loop]; one cycle of [cache_temp];
    the pin toggle at the start of a connection; the routed handler of a
    connection (the reads in between write nothing). *)

Inductive File := main_py | temperature_logger_py.

Inductive Op :=
| Heartbeat
| Sampling (t : Q)
| Accept
| Respond (path : string).

Definition step (f : File) (o : Op) (w : World) : World :=
  match o with
  | Heartbeat => snd (watchdog w)
  | Sampling t =>
      match f with
      | main_py => snd (Main.cache_temp_body t w)
      | temperature_logger_py => snd (TemperatureLogger.cache_temp_body t w)
      end
  | Accept => snd (modify_pins (pin_toggle http_connection_led) w)
  | Respond path => snd (respond path w)
  end.

(** The world after a schedule, oldest operation first. *)
Definition run (f : File) (ops : list Op) (w : World) : World :=
  fold_left (fun w o => step f o w) ops w.

Definition is_heartbeat (o : Op) : bool :=
  match o with
  | Heartbeat => true
  | _ => false
  end.

(** The three temperature attributes. *)
Definition temps (s : PicoServer) : Q * Q * Q :=
  (temp_f_latest s, temp_f_min s, temp_f_max s).

(** The ordering of the running extrema around the latest reading. *)
Definition extrema_ordered (s : PicoServer) : Prop :=
  (temp_f_min s <= temp_f_latest s)%Q /\ (temp_f_latest s <= temp_f_max s)%Q.

(** The number of readings of a run that the classifier puts in band [i]. *)
Definition classified_to (i : nat) (t : Q) : bool :=
  match on_idx t with
  | Ok j => Nat.eqb j i
  | Raise _ => false
  end.

Definition ticks_in_band (i : nat) (readings : list Q) : nat :=
  length (List.filter (classified_to i) readings).

(** A statement keeps a view [proj] of the server object when the view is
    the same after the statement as before, raise or not. *)
Definition keeps {X A} (proj : PicoServer -> X) (m : M A) : Prop :=
  forall w, proj (self (snd (m w))) = proj (self w).

(** ** The specification's wording of the classifier, the formatter and the request line

    These definitions follow the words of the specification, not the
    code; the code is compared with them below. *)

(** Section 4.2: the bands are tested in table order with the strict test,
    and the first match is returned, or none. *)
Fixpoint first_match (t : Q) (bands : list (Z * Z)) : option nat :=
  match bands with
  | [] => None
  | r :: bands' =>
      if in_range t r then Some 0%nat else S <$> first_match t bands'
  end.

(** Section 4.6: successive division by 60, 60, 24, 7; the non-zero higher
    units and always the seconds, largest first, each followed by its name,
    joined by single spaces. *)
Fixpoint join_spaces (l : list string) : string :=
  match l with
  | [] => ""
  | [x] => x
  | x :: l' => x +:+ " " +:+ join_spaces l'
  end.

Definition spec_format (n : Z) : string :=
  let seconds := n mod 60 in
  let minutes := (n / 60) mod 60 in
  let hours := (n / 60 / 60) mod 24 in
  let days := (n / 60 / 60 / 24) mod 7 in
  let weeks := n / 60 / 60 / 24 / 7 in
  let higher :=
    List.filter (fun u => negb (fst u =? 0))
      [ (weeks, "weeks"); (days, "days"); (hours, "hours"); (minutes, "mins") ] in
  join_spaces
    (List.map (fun u => pretty (fst u) +:+ " " +:+ snd u)
       (higher ++ [ (seconds, "secs") ])).

(** Section 4.5: the fields of a line split on whitespace. *)
Definition is_space (c : ascii) : bool :=
  match nat_of_ascii c with
  | 9%nat | 10%nat | 11%nat | 12%nat | 13%nat | 32%nat => true
  | _ => false
  end.

Fixpoint spec_fields_go (s : string) (cur : string) : list string :=
  let flush := match cur with EmptyString => [] | _ => [cur] end in
  match s with
  | EmptyString => flush
  | String c s' =>
      if is_space c then flush ++ spec_fields_go s' EmptyString
      else spec_fields_go s' (cur +:+ String c EmptyString)
  end.

Definition spec_fields (s : string) : list string := spec_fields_go s EmptyString.

(** Section 4.5: method and path are fields 0 and 1 of the first line that
    contains the marker. *)
Definition spec_request (lines : list string) : option (string * string) :=
  match List.find (Py.contains "HTTP/1.1") lines with
  | Some l =>
      match spec_fields l with
      | m :: p :: _ => Some (m, p)
      | _ => None
      end
  | None => None
  end.

(** Section 6: the route table, by exact comparison of the path. *)
Definition spec_route (path : string) : Handler :=
  if String.eqb path "/" then index_page
  else if String.eqb path "/garden_temps" then garden_temp_page
  else if String.eqb path "/method=%22post%22?toggle_led=On" then led_on
  else if String.eqb path "/method=%22post%22?toggle_led=Off" then led_off
  else not_found.

(** ** Joining the wireless network *)

(** [wifi_connect] (lines 63-70) with the decorated [poll_wifi_status]
    (lines 58-61): while [wlan.status()] is not 3, the wrapper of
    [blink_led] toggles the watchdog pin and the task sleeps.  [statuses]
    holds the successive values of [wlan.status()]; [None] when they run out
    before a 3 is seen, the loop still polling. *)
Fixpoint wifi_connect (statuses : list Z) (h : Pins) : option Pins :=
  match statuses with
  | [] => None
  | st :: rest =>
      if st =? 3 then Some h
      else wifi_connect rest (pin_toggle watchdog_led h)
  end.

(** ** Views of a schedule and of the state *)

(** A statement keeps the level of pin [p]. *)
Definition keeps_pin {A} (p : Pin) (m : M A) : Prop :=
  forall w, level p (pins (snd (m w))) = level p (pins w).

Definition is_sampling (o : Op) : bool :=
  match o with
  | Sampling _ => true
  | _ => false
  end.

(** What an operation writes to the user pin, if anything: the routes of
    [led_on] and [led_off] are the only writers. *)
Definition led_command (o : Op) : option bool :=
  match o with
  | Respond path =>
      match get_route path with
      | Ok led_on => Some true
      | Ok led_off => Some false
      | _ => None
      end
  | _ => None
  end.

Definition sum_Z (l : list Z) : Z := fold_right Z.add 0 l.

(** The characters of a string. *)
Fixpoint chars (s : string) : list ascii :=
  match s with
  | EmptyString => []
  | String c s' => c :: chars s'
  end.

(** A request line: method, path and protocol version, one space between
    them, then CR LF. *)
Definition request_line (method path : string) : string :=
  method +:+ " " +:+ path +:+ " HTTP/1.1" +:+ CRLF.

(** The pins each operation of a duty may write. *)
Definition is_band_pin (p : Pin) : bool :=
  match p with
  | temp_low_crit_thresh_led | temp_low_warn_thresh_led | temp_ok_thresh_led
  | temp_high_warn_thresh_led | temp_high_crit_thresh_led => true
  | _ => false
  end.

Definition writes (o : Op) (p : Pin) : bool :=
  match o, p with
  | Heartbeat, watchdog_led => true
  | Sampling _, _ => is_band_pin p
  | Accept, http_connection_led => true
  | Respond _, user_led => true
  | _, _ => false
  end.

(** The four paths that are served with status 200. *)
Definition served (path : string) : bool :=
  String.eqb path "/" ||
  String.eqb path "/method=%22post%22?toggle_led=On" ||
  String.eqb path "/method=%22post%22?toggle_led=Off" ||
  String.eqb path "/garden_temps".

(** ** The sensor formula

    [read_temp] (lines 129-138) evaluates this formula in floating point on
    the value [raw] of [adc.read_u16()], between 0 and 65535.
    [read_temp_unrounded] is the formula in exact arithmetic: the pair the
    code returns differs from it by the rounding of the float operations
    only.  It serves to locate the readings the converter can give; the
    reading of a tick stays an input. *)
Definition read_temp_unrounded (raw : Z) : Q * Q :=
  let volts := (inject_Z raw * (3.3 / 65535))%Q in
  let temp_c := (27 - (volts - 0.706) / 0.001721)%Q in
  (temp_c, (32 + (1.8 * temp_c))%Q).

(** * Properties *)

(** ** Comparisons and the band test *)

Lemma lt_true (a b : Q) : Py.lt a b = true <-> (a < b)%Q.
Proof. unfold Py.lt, Qlt. apply Z.ltb_lt. Qed.

Lemma lt_false (a b : Q) : Py.lt a b = false <-> (b <= a)%Q.
Proof. unfold Py.lt, Qle. rewrite Z.ltb_ge. reflexivity. Qed.

Lemma in_range_true t lo hi :
  in_range t (lo, hi) = true <-> (inject_Z lo < t /\ t < inject_Z hi)%Q.
Proof.
  unfold in_range; simpl. rewrite andb_true_iff, !lt_true. reflexivity.
Qed.

Lemma in_range_false t lo hi :
  in_range t (lo, hi) = false <-> (t <= inject_Z lo \/ inject_Z hi <= t)%Q.
Proof.
  unfold in_range; simpl. rewrite andb_false_iff, !lt_false. reflexivity.
Qed.

Lemma on_item_unfold t :
  on_item t =
    (if in_range t (-40, 32) then [(-40, 32)] else []) ++
    (if in_range t (32, 37) then [(32, 37)] else []) ++
    (if in_range t (37, 60) then [(37, 60)] else []) ++
    (if in_range t (60, 85) then [(60, 85)] else []) ++
    (if in_range t (86, 176) then [(86, 176)] else []).
Proof.
  unfold on_item, thresholds; simpl.
  repeat match goal with
         | |- context [in_range t ?r] => destruct (in_range t r)
         end; reflexivity.
Qed.

(** Splits on the outcome of the five band tests at [t], each outcome
    turned into its inequalities. *)
Ltac band_cases t :=
  rewrite (on_item_unfold t);
  repeat match goal with
    | |- context [in_range t (?lo, ?hi)] =>
        let E := fresh "E" in
        destruct (in_range t (lo, hi)) eqn:E;
        [ apply in_range_true in E | apply in_range_false in E ];
        unfold inject_Z in E
    end.

(** The readings no band accepts. *)
Lemma on_item_nil_iff (t : Q) :
  on_item t = [] <->
  (t <= -40 \/ t == 32 \/ t == 37 \/ t == 60 \/ (85 <= t /\ t <= 86) \/ 176 <= t)%Q.
Proof.
  split.
  - band_cases t; simpl; intros H; try discriminate H.
    destruct (Qlt_le_dec t 32); [left; lra|].
    destruct (Qlt_le_dec t 37); [right; left; lra|].
    destruct (Qlt_le_dec t 60); [right; right; left; lra|].
    destruct (Qlt_le_dec t 85); [right; right; right; left; lra|].
    destruct (Qlt_le_dec t 176); [right; right; right; right; left; lra|].
    right; right; right; right; right; lra.
  - intros H. band_cases t; try reflexivity; exfalso; lra.
Qed.

Lemma on_idx_no_band (t : Q) : on_item t = [] -> on_idx t = Raise IndexError.
Proof. unfold on_idx. intros ->. reflexivity. Qed.

Lemma on_idx_first_match (t : Q) :
  on_idx t = match first_match t thresholds with
             | Some i => Ok i
             | None => Raise IndexError
             end.
Proof.
  unfold on_idx. rewrite (on_item_unfold t). unfold thresholds; simpl.
  repeat match goal with
         | |- context [in_range t ?r] => destruct (in_range t r)
         end; reflexivity.
Qed.

(** C2.  A reading strictly inside the open interval of the band at position
    [i] of the threshold table passes the strict test of that band only
    ([on_item] is the one-element list holding it), and the classifier
    returns [i]; no band at another position accepts the reading. *)
Theorem classify_inside_band (t : Q) (i : nat) (lo hi : Z) :
  thresholds !! i = Some (lo, hi) ->
  (inject_Z lo < t)%Q -> (t < inject_Z hi)%Q ->
  on_item t = [(lo, hi)] /\
  on_idx t = Ok i /\
  first_match t thresholds = Some i /\
  (forall j r, thresholds !! j = Some r -> in_range t r = true -> j = i).
Proof.
  intros Hi Hlo Hhi.
  assert (Hone : on_item t = [(lo, hi)] /\ on_idx t = Ok i).
  { unfold on_idx.
    do 5 (destruct i as [|i];
          [ injection Hi as <- <-; unfold inject_Z in *;
            band_cases t; try (exfalso; lra); split; reflexivity |]).
    destruct i; discriminate. }
  destruct Hone as [Hitem Hidx]. split; [exact Hitem|]. split; [exact Hidx|].
  split.
  - pose proof (on_idx_first_match t) as H. rewrite Hidx in H.
    destruct (first_match t thresholds); congruence.
  - intros j [lo' hi'] Hj Hr.
    apply in_range_true in Hr. destruct Hr as [H1 H2].
    do 5 (destruct j as [|j];
          [ injection Hj as <- <-;
            do 5 (destruct i as [|i];
                  [ injection Hi as <- <-; unfold inject_Z in *;
                    first [ reflexivity | exfalso; lra ] |]);
            destruct i; discriminate |]).
    destruct j; discriminate.
Qed.

Lemma classify_inside_band_witness :
  on_item 70 = [(60, 85)] /\ on_idx 70 = Ok 3%nat /\
  first_match 70 thresholds = Some 3%nat /\
  (forall j r, thresholds !! j = Some r -> in_range 70 r = true -> j = 3%nat).
Proof.
  apply (classify_inside_band 70 3 60 85); [reflexivity | reflexivity | reflexivity].
Defined.

(** ** One sampling tick *)

Lemma sample_eq (t : Q) (w : World) :
  sample t w = (on_idx t, {| self := record_temp t (self w); pins := pins w |}).
Proof. reflexivity. Qed.

(** In [src/main.py] the indicator loop stops in its first round: [led] is
    the integer 0, which has no [value] attribute. *)
Lemma Main_set_leds_raises (i : nat) (w : World) :
  Main.set_leds i w = (Raise AttributeError, w).
Proof. reflexivity. Qed.

Lemma Main_cache_temp_body_eq (t : Q) (w : World) :
  Main.cache_temp_body t w =
    (match on_idx t with
     | Ok _ => Raise AttributeError
     | Raise e => Raise e
     end,
     {| self := record_temp t (self w); pins := pins w |}).
Proof.
  unfold Main.cache_temp_body, bind. rewrite sample_eq.
  destruct (on_idx t); [apply Main_set_leds_raises | reflexivity].
Qed.

Lemma TemperatureLogger_cache_temp_body_no_band (t : Q) (w : World) :
  on_item t = [] ->
  TemperatureLogger.cache_temp_body t w =
    (Raise IndexError, {| self := record_temp t (self w); pins := pins w |}).
Proof.
  intros H. unfold TemperatureLogger.cache_temp_body, bind.
  rewrite sample_eq, (on_idx_no_band t H). reflexivity.
Qed.

(** The indicator loop of [src/temperature_logger.py] on a five-entry
    counter list: the band pins show [idx == on_idx] and the counter of the
    band goes up by one. *)
Lemma TemperatureLogger_set_leds_eq (i : nat) (w : World) (a b c d e : Z) :
  (i < 5)%nat ->
  thresh_times (self w) = [a; b; c; d; e] ->
  TemperatureLogger.set_leds i w =
    (Ok tt,
     {| self := {| watchdog_val := watchdog_val (self w);
                   temp_f_latest := temp_f_latest (self w);
                   temp_f_min := temp_f_min (self w);
                   temp_f_max := temp_f_max (self w);
                   thresh_times :=
                     alter (fun n => n + 1) i (thresh_times (self w)) |};
        pins := {| lvl_watchdog := lvl_watchdog (pins w);
                   lvl_http_connection := lvl_http_connection (pins w);
                   lvl_user := lvl_user (pins w);
                   lvl_low_crit := Nat.eqb 0 i;
                   lvl_low_warn := Nat.eqb 1 i;
                   lvl_ok := Nat.eqb 2 i;
                   lvl_high_warn := Nat.eqb 3 i;
                   lvl_high_crit := Nat.eqb 4 i |} |}).
Proof.
  intros Hi Ht. destruct w as [[wd tl tmin tmax ts] [p1 p2 p3 p4 p5 p6 p7 p8]].
  simpl in Ht. subst ts.
  do 5 (destruct i as [|i]; [reflexivity|]). lia.
Qed.

Lemma on_idx_lt (t : Q) (i : nat) : on_idx t = Ok i -> (i < 5)%nat.
Proof.
  rewrite on_idx_first_match. unfold thresholds; simpl.
  repeat match goal with
         | |- context [in_range t ?r] => destruct (in_range t r)
         end; simpl; intros H; inversion H; lia.
Qed.

(** C10.  A reading equal to an interior boundary of the table (32, 37 or
    60) passes no band test, so [on_item] is empty, exactly as for a reading
    in the gap from 85 to 86; [on_item[0]] then raises [IndexError] and the
    tick of either file ends with that exception. *)
Theorem boundary_reading_matches_no_band (t : Q) :
  (t == 32 \/ t == 37 \/ t == 60)%Q ->
  on_item t = [] /\
  (forall g : Q, (85 <= g)%Q -> (g <= 86)%Q ->
     on_item g = on_item t /\ on_idx g = on_idx t) /\
  on_idx t = Raise IndexError /\
  (forall w, fst (Main.cache_temp_body t w) = Raise IndexError) /\
  (forall w, fst (TemperatureLogger.cache_temp_body t w) = Raise IndexError).
Proof.
  intros H.
  assert (Ht : on_item t = []) by (apply on_item_nil_iff; tauto).
  split; [exact Ht|]. split.
  - intros g H1 H2.
    assert (Hg : on_item g = []) by (apply on_item_nil_iff; tauto).
    rewrite (on_idx_no_band g Hg), (on_idx_no_band t Ht), Hg, Ht. split; reflexivity.
  - split; [apply on_idx_no_band, Ht|]. split; intros w.
    + rewrite Main_cache_temp_body_eq, (on_idx_no_band t Ht). reflexivity.
    + rewrite (TemperatureLogger_cache_temp_body_no_band t w Ht). reflexivity.
Qed.

Lemma boundary_reading_matches_no_band_witness :
  on_item 32 = [] /\
  (forall g : Q, (85 <= g)%Q -> (g <= 86)%Q ->
     on_item g = on_item 32 /\ on_idx g = on_idx 32) /\
  on_idx 32 = Raise IndexError /\
  (forall w, fst (Main.cache_temp_body 32 w) = Raise IndexError) /\
  (forall w, fst (TemperatureLogger.cache_temp_body 32 w) = Raise IndexError).
Proof.
  apply (boundary_reading_matches_no_band 32). left. reflexivity.
Defined.

(** C1.  At a reading in the gap between the fourth and the fifth band,
    from 85 to 86 with both ends, the tick of either file does not
    complete: the filter leaves [on_item] empty, [on_item[0]] raises
    [IndexError], and [cache_temp] ends there.  The band pins and the
    counters are as they were before the tick. *)
Theorem gap_reading_raises_IndexError (t : Q) (w : World) :
  (85 <= t)%Q -> (t <= 86)%Q ->
  on_idx t = Raise IndexError /\
  (exists w', Main.cache_temp_body t w = (Raise IndexError, w') /\
     pins w' = pins w /\ thresh_times (self w') = thresh_times (self w)) /\
  (exists w', TemperatureLogger.cache_temp_body t w = (Raise IndexError, w') /\
     pins w' = pins w /\ thresh_times (self w') = thresh_times (self w)).
Proof.
  intros Hlo Hhi.
  assert (Ht : on_item t = []) by (apply on_item_nil_iff; tauto).
  split; [apply on_idx_no_band, Ht|]. split; eexists; split.
  - rewrite Main_cache_temp_body_eq, (on_idx_no_band t Ht). reflexivity.
  - split; reflexivity.
  - apply (TemperatureLogger_cache_temp_body_no_band t w Ht).
  - split; reflexivity.
Qed.

(** The witness is a reading inside the gap: 5604981 / 65536, about
    85.5252, the single-precision number next to what the sensor formula
    gives for the converter value 13927. *)
Lemma gap_reading_raises_IndexError_witness :
  on_idx (5604981 # 65536) = Raise IndexError /\
  (exists w', Main.cache_temp_body (5604981 # 65536) world_init
                = (Raise IndexError, w') /\
     pins w' = pins world_init /\
     thresh_times (self w') = thresh_times (self world_init)) /\
  (exists w', TemperatureLogger.cache_temp_body (5604981 # 65536) world_init
                = (Raise IndexError, w') /\
     pins w' = pins world_init /\
     thresh_times (self w') = thresh_times (self world_init)).
Proof.
  apply (gap_reading_raises_IndexError (5604981 # 65536) world_init);
    unfold Qle; simpl; lia.
Defined.

(** The sensor formula is linear in the converter value. *)
Lemma read_temp_unrounded_linear (raw : Z) :
  (snd (read_temp_unrounded raw) ==
     (7047563 # 8605) - (396000 # 7519049) * inject_Z raw)%Q.
Proof. unfold read_temp_unrounded. cbv [snd]. field. Qed.

(** The gap is reached: for each of the eighteen converter values from
    13919 to 13936 the sensor formula gives a reading more than a twentieth
    of a degree inside the gap, so every number within a twentieth of a
    degree of it lies strictly between 85 and 86.  (The rounding of the
    float operations, which is not modelled, moves the result by much less
    than that.) *)
Lemma adc_readings_in_gap (raw : Z) (t : Q) :
  13919 <= raw <= 13936 ->
  (snd (read_temp_unrounded raw) - (1 # 20) <= t)%Q ->
  (t <= snd (read_temp_unrounded raw) + (1 # 20))%Q ->
  (85 < t)%Q /\ (t < 86)%Q.
Proof.
  intros [H1 H2] Hlo Hhi.
  rewrite read_temp_unrounded_linear in Hlo, Hhi.
  assert (L1 : (13919 <= inject_Z raw)%Q)
    by (change 13919%Q with (inject_Z 13919); rewrite <- Zle_Qle; exact H1).
  assert (L2 : (inject_Z raw <= 13936)%Q)
    by (change 13936%Q with (inject_Z 13936); rewrite <- Zle_Qle; exact H2).
  split; lra.
Qed.

(** ** What a statement leaves alone

    [proj] is any view of the server object that does not look at the
    counters; the statements below keep it. *)

Section Frame.

Context {X : Type} (proj : PicoServer -> X).

Hypothesis proj_ignores_counters :
  forall wd tl tmin tmax ts ts',
    proj (mkPicoServer wd tl tmin tmax ts) = proj (mkPicoServer wd tl tmin tmax ts').

Local Abbreviation keeps := (keeps proj).

Lemma keeps_ret {A} (a : A) : keeps (ret a).
Proof. intros w. reflexivity. Qed.

Lemma keeps_raise {A} (e : Exn) : keeps (raise e : M A).
Proof. intros w. reflexivity. Qed.

Lemma keeps_lift {A} (r : result A) : keeps (lift r).
Proof. intros w. reflexivity. Qed.

Lemma keeps_modify_pins (f : Pins -> Pins) : keeps (modify_pins f).
Proof. intros w. reflexivity. Qed.

Lemma keeps_bind {A B} (m : M A) (k : A -> M B) :
  keeps m -> (forall a, keeps (k a)) -> keeps (bind m k).
Proof.
  intros Hm Hk w. unfold bind. specialize (Hm w).
  destruct (m w) as [[a|e] w']; simpl in *.
  - rewrite Hk. exact Hm.
  - exact Hm.
Qed.

Lemma keeps_for_each {A} (l : list A) (body : A -> M unit) :
  (forall x, keeps (body x)) -> keeps (for_each l body).
Proof.
  intros Hb. induction l as [|x l IH]; simpl.
  - apply keeps_ret.
  - apply keeps_bind; [apply Hb | intros _; exact IH].
Qed.

Lemma keeps_bump_thresh_time (idx : nat) : keeps (bump_thresh_time idx).
Proof.
  intros w. unfold bump_thresh_time, bind, get_self, lift, put_self.
  destruct (Py.subscript (thresh_times (self w)) idx); simpl; [|reflexivity].
  destruct (self w); simpl. apply proj_ignores_counters.
Qed.

Lemma keeps_Main_set_leds (i : nat) : keeps (Main.set_leds i).
Proof. intros w. rewrite Main_set_leds_raises. reflexivity. Qed.

Lemma keeps_TemperatureLogger_set_leds (i : nat) :
  keeps (TemperatureLogger.set_leds i).
Proof.
  apply keeps_for_each. intros idx.
  apply keeps_bind; [apply keeps_lift|]. intros led.
  apply keeps_bind; [apply keeps_modify_pins|]. intros _.
  destruct (Nat.eqb idx i); [apply keeps_bump_thresh_time | apply keeps_ret].
Qed.

Lemma keeps_run_handler (h : Handler) : keeps (run_handler h).
Proof. destruct h; intros w; reflexivity. Qed.

Lemma keeps_respond (path : string) : keeps (respond path).
Proof.
  apply keeps_bind; [apply keeps_lift | intros h; apply keeps_run_handler].
Qed.

(** After a tick of either file the view is the one [record_temp] left. *)
Lemma tick_view (f : File) (t : Q) (w : World) :
  proj (self (step f (Sampling t) w)) = proj (record_temp t (self w)).
Proof.
  destruct f; simpl.
  - rewrite Main_cache_temp_body_eq. reflexivity.
  - unfold TemperatureLogger.cache_temp_body, bind. rewrite sample_eq.
    destruct (on_idx t) as [i|e]; [|reflexivity].
    rewrite keeps_TemperatureLogger_set_leds. reflexivity.
Qed.

End Frame.

(** ** The running extrema *)

Lemma min_le_r (a t : Q) : (Py.min a t <= t)%Q.
Proof.
  unfold Py.min. destruct (Py.lt t a) eqn:E.
  - apply Qle_refl.
  - apply lt_false in E. exact E.
Qed.

Lemma max_ge_r (a t : Q) : (t <= Py.max a t)%Q.
Proof.
  unfold Py.max. destruct (Py.lt a t) eqn:E.
  - apply Qle_refl.
  - apply lt_false in E. exact E.
Qed.

Lemma record_temp_ordered (t : Q) (s : PicoServer) :
  extrema_ordered (record_temp t s).
Proof. split; simpl; [apply min_le_r | apply max_ge_r]. Qed.

Lemma extrema_ordered_temps (s s' : PicoServer) :
  temps s' = temps s -> extrema_ordered s -> extrema_ordered s'.
Proof.
  unfold temps, extrema_ordered. intros H. injection H as -> -> ->. tauto.
Qed.

Lemma step_ordered (f : File) (o : Op) (w : World) :
  extrema_ordered (self w) -> extrema_ordered (self (step f o w)).
Proof.
  intros H. destruct o as [|t| |path].
  - exact H.
  - apply (extrema_ordered_temps (record_temp t (self w)));
      [ apply (tick_view temps); reflexivity | apply record_temp_ordered ].
  - exact H.
  - apply (extrema_ordered_temps (self w)); [|exact H].
    apply (keeps_respond temps).
Qed.

Lemma run_ordered (f : File) (ops : list Op) (w : World) :
  extrema_ordered (self w) -> extrema_ordered (self (run f ops w)).
Proof.
  revert w. induction ops as [|o ops IH]; intros w H.
  - exact H.
  - change (run f (o :: ops) w) with (run f ops (step f o w)).
    apply IH, step_ordered, H.
Qed.

Lemma run_app (f : File) (ops1 ops2 : list Op) (w : World) :
  run f (ops1 ++ ops2) w = run f ops2 (run f ops1 w).
Proof. unfold run. apply fold_left_app. Qed.

(** C7.  Whatever the state before it and whatever value it reads, a
    sampling tick leaves [temp_f_min <= temp_f_latest <= temp_f_max]; and
    the ordering holds at the end of every schedule of the duties in which
    a sampling tick has run, whatever runs after that tick (further ticks
    with any readings, heartbeats, connections). *)
Theorem extrema_ordered_after_first_tick (f : File) :
  (forall t w, extrema_ordered (self (step f (Sampling t) w))) /\
  (forall ops1 t ops2 w,
     extrema_ordered (self (run f (ops1 ++ Sampling t :: ops2) w))).
Proof.
  assert (H1 : forall t w, extrema_ordered (self (step f (Sampling t) w))).
  { intros t w.
    apply (extrema_ordered_temps (record_temp t (self w)));
      [ apply (tick_view temps); reflexivity | apply record_temp_ordered ]. }
  split; [exact H1|].
  intros ops1 t ops2 w. rewrite run_app. simpl.
  apply run_ordered, H1.
Qed.

(** C3.  From the initial state, a first tick of [src/main.py] that reads
    a value below zero leaves [temp_f_max] at its initial 0: the value
    reported as the maximum is above the only reading taken.  (The band
    table starts at -40, so such readings are expected.) *)
Theorem max_sentinel_outlives_negative_reading (t : Q) :
  (t < 0)%Q ->
  let w' := snd (Main.cache_temp [t] world_init) in
  temp_f_latest (self w') = t /\
  temp_f_min (self w') = t /\
  temp_f_max (self w') = 0%Q /\
  (t < temp_f_max (self w'))%Q.
Proof.
  intros H. unfold Main.cache_temp; simpl for_each. unfold bind.
  rewrite Main_cache_temp_body_eq.
  assert (Hmax : Py.max 0 t = 0%Q).
  { unfold Py.max. destruct (Py.lt 0 t) eqn:E; [|reflexivity].
    apply lt_true in E. lra. }
  assert (Hmin : Py.min 1000 t = t).
  { unfold Py.min. destruct (Py.lt t 1000) eqn:E; [reflexivity|].
    apply lt_false in E. lra. }
  destruct (on_idx t); simpl; rewrite Hmax, Hmin; repeat split; exact H.
Qed.

Lemma max_sentinel_outlives_negative_reading_witness :
  let w' := snd (Main.cache_temp [(-10)%Q] world_init) in
  temp_f_latest (self w') = (-10)%Q /\
  temp_f_min (self w') = (-10)%Q /\
  temp_f_max (self w') = 0%Q /\
  ((-10) < temp_f_max (self w'))%Q.
Proof.
  apply (max_sentinel_outlives_negative_reading (-10)%Q). reflexivity.
Defined.

(** ** The heartbeat counter *)

Lemma watchdog_eq (w : World) :
  watchdog w =
    (Ok tt,
     {| self := {| watchdog_val := watchdog_val (self w) + 1;
                   temp_f_latest := temp_f_latest (self w);
                   temp_f_min := temp_f_min (self w);
                   temp_f_max := temp_f_max (self w);
                   thresh_times := thresh_times (self w) |};
        pins := pin_toggle watchdog_led (pins w) |}).
Proof. reflexivity. Qed.

Lemma step_watchdog_val (f : File) (o : Op) (w : World) :
  watchdog_val (self (step f o w)) =
    watchdog_val (self w) + (if is_heartbeat o then 1 else 0).
Proof.
  destruct o as [|t| |path]; simpl is_heartbeat.
  - simpl. reflexivity.
  - rewrite (tick_view watchdog_val); [simpl; lia | reflexivity].
  - simpl. lia.
  - unfold step. rewrite (keeps_respond watchdog_val). lia.
Qed.

Lemma run_watchdog_val (f : File) (ops : list Op) (w : World) :
  watchdog_val (self (run f ops w)) =
    watchdog_val (self w) + Z.of_nat (length (List.filter is_heartbeat ops)).
Proof.
  revert w. induction ops as [|o ops IH]; intros w.
  - simpl. lia.
  - change (run f (o :: ops) w) with (run f ops (step f o w)).
    rewrite IH, step_watchdog_val. simpl List.filter.
    destruct (is_heartbeat o); simpl length; lia.
Qed.

(** C9.  A heartbeat cycle adds exactly one to [watchdog_val]; a sampling
    tick, the start of a connection and a routed handler leave it as it is;
    so after any schedule of the duties the counter is its initial value
    plus the number of heartbeat cycles run, and extending a schedule never
    lowers it. *)
Theorem heartbeat_counter_counts_cycles (f : File) :
  (forall w, watchdog_val (self (step f Heartbeat w)) = watchdog_val (self w) + 1) /\
  (forall t w, watchdog_val (self (step f (Sampling t) w)) = watchdog_val (self w)) /\
  (forall w, watchdog_val (self (step f Accept w)) = watchdog_val (self w)) /\
  (forall path w, watchdog_val (self (step f (Respond path) w)) = watchdog_val (self w)) /\
  (forall ops w,
     watchdog_val (self (run f ops w)) =
       watchdog_val (self w) + Z.of_nat (length (List.filter is_heartbeat ops))) /\
  (forall ops1 ops2 w,
     watchdog_val (self (run f ops1 w)) <= watchdog_val (self (run f (ops1 ++ ops2) w))).
Proof.
  split; [|split; [|split; [|split; [|split]]]].
  - intros w. rewrite step_watchdog_val. reflexivity.
  - intros t w. rewrite step_watchdog_val. simpl. lia.
  - intros w. rewrite step_watchdog_val. simpl. lia.
  - intros path w. rewrite step_watchdog_val. simpl. lia.
  - apply run_watchdog_val.
  - intros ops1 ops2 w. rewrite run_app, (run_watchdog_val f ops2). lia.
Qed.

(** A connection writes the counter no more than its two pieces do. *)
Lemma handle_client_watchdog_val (lines : list string) (w : World) r w' :
  handle_client lines w = Some (r, w') ->
  watchdog_val (self w') = watchdog_val (self w).
Proof.
  unfold handle_client. destruct (read_request lines "" "") as [m p|e|].
  - intros H. injection H as H. apply (f_equal snd) in H.
    change (snd (r, w')) with w' in H. subst w'.
    exact (keeps_respond watchdog_val p
             {| self := self w; pins := pin_toggle http_connection_led (pins w) |}).
  - intros H. injection H as _ <-. reflexivity.
  - discriminate.
Qed.

(** ** The dwell counters *)

(** C6.  In [src/main.py] a tick whose reading is classified to a band
    does not count: the indicator loop raises [AttributeError] in its first
    round, before any counter is written, and the counters and the pins are
    what they were. *)
Theorem Main_classified_tick_counts_nothing (t : Q) (i : nat) (w : World) :
  on_idx t = Ok i ->
  exists w',
    Main.cache_temp_body t w = (Raise AttributeError, w') /\
    thresh_times (self w') = thresh_times (self w) /\
    thresh_times (self w') !! i = thresh_times (self w) !! i /\
    pins w' = pins w.
Proof.
  intros H. eexists. rewrite Main_cache_temp_body_eq, H.
  split; [reflexivity|]. repeat split.
Qed.

Lemma Main_classified_tick_counts_nothing_witness :
  exists w',
    Main.cache_temp_body 70 world_init = (Raise AttributeError, w') /\
    thresh_times (self w') = thresh_times (self world_init) /\
    thresh_times (self w') !! 3%nat = thresh_times (self world_init) !! 3%nat /\
    pins w' = pins world_init.
Proof.
  apply (Main_classified_tick_counts_nothing 70 3 world_init). reflexivity.
Defined.

(** No tick of [src/main.py] returns, so its loop ends with the first
    reading, and no run of it writes a counter. *)
Lemma Main_cache_temp_body_raises (t : Q) (w : World) :
  exists e, fst (Main.cache_temp_body t w) = Raise e.
Proof.
  rewrite Main_cache_temp_body_eq. destruct (on_idx t); simpl; eauto.
Qed.

Lemma Main_cache_temp_counts_nothing (readings : list Q) (w : World) :
  thresh_times (self (snd (Main.cache_temp readings w))) = thresh_times (self w).
Proof.
  destruct readings as [|t rs]; [reflexivity|].
  unfold Main.cache_temp; simpl for_each. unfold bind.
  destruct (Main_cache_temp_body_raises t w) as [e He].
  pose proof (Main_cache_temp_body_eq t w) as Hw.
  destruct (Main.cache_temp_body t w) as [[u|e'] w']; simpl in He; [discriminate|].
  injection Hw as _ ->. reflexivity.
Qed.

(** The sibling loop of [src/temperature_logger.py] does count. *)
Lemma TemperatureLogger_tick_counts (t : Q) (i : nat) (w : World) (a b c d e : Z) :
  on_idx t = Ok i ->
  thresh_times (self w) = [a; b; c; d; e] ->
  exists w',
    TemperatureLogger.cache_temp_body t w = (Ok tt, w') /\
    thresh_times (self w') = alter (fun n => n + 1) i [a; b; c; d; e].
Proof.
  intros Hi Ht. eexists.
  unfold TemperatureLogger.cache_temp_body, bind. rewrite sample_eq, Hi.
  rewrite (TemperatureLogger_set_leds_eq i _ a b c d e);
    [ | apply (on_idx_lt t), Hi | exact Ht ].
  split; [reflexivity|]. simpl. rewrite Ht. reflexivity.
Qed.

Lemma alter_five (i : nat) (a b c d e : Z) :
  exists a' b' c' d' e', alter (fun n => n + 1) i [a; b; c; d; e] = [a'; b'; c'; d'; e'].
Proof.
  do 5 (destruct i as [|i]; [repeat eexists|]). repeat eexists.
Qed.

Lemma ticks_in_band_cons (i : nat) (t : Q) (rs : list Q) :
  ticks_in_band i (t :: rs) =
    ((if classified_to i t then 1 else 0) + ticks_in_band i rs)%nat.
Proof.
  unfold ticks_in_band. simpl. destruct (classified_to i t); reflexivity.
Qed.

(** After [N] ticks that all fall in a band, counter [i] has grown by the
    number of ticks classified to band [i] (one second per tick). *)
Lemma TemperatureLogger_counts_ticks (readings : list Q) :
  Forall (fun t => exists i, on_idx t = Ok i) readings ->
  forall (w : World) (a b c d e : Z),
    thresh_times (self w) = [a; b; c; d; e] ->
    exists w',
      TemperatureLogger.cache_temp readings w = (Ok tt, w') /\
      forall i, thresh_times (self w') !! i =
                (fun n => n + Z.of_nat (ticks_in_band i readings))
                  <$> thresh_times (self w) !! i.
Proof.
  induction 1 as [|t rs [j Hj] _ IH]; intros w a b c d e Hw.
  - exists w. split; [reflexivity|]. intros i. unfold ticks_in_band; simpl.
    destruct (thresh_times (self w) !! i); simpl; [apply (f_equal Some); lia | reflexivity].
  - destruct (TemperatureLogger_tick_counts t j w a b c d e Hj Hw) as (w1 & Htick & Hts).
    destruct (alter_five j a b c d e) as (a' & b' & c' & d' & e' & Halt).
    rewrite Halt in Hts.
    destruct (IH w1 a' b' c' d' e' Hts) as (w' & Hrun & Hcount).
    exists w'. split.
    + unfold TemperatureLogger.cache_temp in *. simpl for_each. unfold bind.
      rewrite Htick. exact Hrun.
    + intros i. rewrite Hcount, Hts, <- Halt, Hw, ticks_in_band_cons.
      unfold classified_to. rewrite Hj.
      destruct (decide (j = i)) as [->|Hne].
      * rewrite Nat.eqb_refl, list_lookup_alter_eq, Nat2Z.inj_add.
        destruct ([a; b; c; d; e] !! i); simpl; [apply (f_equal Some); lia | reflexivity].
      * rewrite list_lookup_alter_ne by exact Hne.
        apply Nat.eqb_neq in Hne. rewrite Hne, Nat2Z.inj_add.
        destruct ([a; b; c; d; e] !! i); simpl; [apply (f_equal Some); lia | reflexivity].
Qed.

(** Each tick of [src/temperature_logger.py] adds at most one second to the
    sum of the counters. *)
Lemma TemperatureLogger_sum_bounded (readings : list Q) :
  forall (w : World) (a b c d e : Z),
    thresh_times (self w) = [a; b; c; d; e] ->
    exists a' b' c' d' e',
      thresh_times (self (snd (TemperatureLogger.cache_temp readings w)))
        = [a'; b'; c'; d'; e'] /\
      a' + b' + c' + d' + e' <= a + b + c + d + e + Z.of_nat (length readings).
Proof.
  induction readings as [|t rs IH]; intros w a b c d e Hw.
  - exists a, b, c, d, e. simpl. split; [exact Hw | lia].
  - unfold TemperatureLogger.cache_temp in *. simpl for_each. unfold bind at 1.
    destruct (on_idx t) as [i|x] eqn:Hi.
    + destruct (TemperatureLogger_tick_counts t i w a b c d e Hi Hw) as (w1 & Htick & Hts).
      rewrite Htick.
      assert (Hfive : exists a1 b1 c1 d1 e1,
                 thresh_times (self w1) = [a1; b1; c1; d1; e1] /\
                 a1 + b1 + c1 + d1 + e1 <= a + b + c + d + e + 1).
      { rewrite Hts.
        do 5 (destruct i as [|i];
              [ do 5 eexists; split; [reflexivity | lia] |]).
        do 5 eexists; split; [reflexivity | lia]. }
      destruct Hfive as (a1 & b1 & c1 & d1 & e1 & H1 & Hle).
      destruct (IH w1 a1 b1 c1 d1 e1 H1) as (a' & b' & c' & d' & e' & H' & Hle').
      exists a', b', c', d', e'. split; [exact H'|].
      simpl length. lia.
    + unfold TemperatureLogger.cache_temp_body, bind. rewrite sample_eq, Hi.
      exists a, b, c, d, e. simpl. split; [exact Hw | lia].
Qed.

(** ** The dwell-time formatter *)

Lemma append_assoc (a b c : string) : (a +:+ b) +:+ c = a +:+ (b +:+ c).
Proof.
  induction a as [|x a IH]; [reflexivity|].
  change (String x ((a +:+ b) +:+ c) = String x (a +:+ (b +:+ c))).
  rewrite IH. reflexivity.
Qed.

(** The formatter of [src/main.py] is the formatter of the specification,
    on every non-negative count. *)
Lemma Main_format_seconds_spec (n : Z) :
  0 <= n -> format_seconds " weeks " n = spec_format n.
Proof.
  intros Hn. unfold format_seconds, spec_format, Py.divmod.
  assert (Hm : 0 <= (n / 60) mod 60) by (apply Z.mod_pos_bound; lia).
  assert (Hh : 0 <= (n / 60 / 60) mod 24) by (apply Z.mod_pos_bound; lia).
  assert (Hd : 0 <= (n / 60 / 60 / 24) mod 7) by (apply Z.mod_pos_bound; lia).
  assert (Hw : 0 <= n / 60 / 60 / 24 / 7)
    by (repeat (apply Z.div_pos; [|lia]); exact Hn).
  set (s := n mod 60). set (m := (n / 60) mod 60) in *.
  set (h := (n / 60 / 60) mod 24) in *. set (d := (n / 60 / 60 / 24) mod 7) in *.
  set (k := n / 60 / 60 / 24 / 7) in *.
  assert (T : forall x, 0 <= x -> negb (x =? 0) = (0 <? x)).
  { intros x Hx. destruct (Z.eqb_spec x 0), (Z.ltb_spec 0 x); simpl; lia || reflexivity. }
  cbn [List.filter fst snd]. rewrite (T k Hw), (T d Hd), (T h Hh), (T m Hm).
  destruct (0 <? k), (0 <? d), (0 <? h), (0 <? m);
    cbn [List.app List.map join_spaces fst snd];
    rewrite ?append_assoc; reflexivity.
Qed.

(** C5.  The four sample values are formatted as the specification says by
    both files, and [src/main.py] formats a whole week as the specification
    says; [src/temperature_logger.py] puts no space after the week count. *)
Theorem TemperatureLogger_format_times_week :
  let at_ n := {| watchdog_val := 0; temp_f_latest := 0; temp_f_min := 1000;
                  temp_f_max := 0; thresh_times := [n; 0; 0; 0; 0] |} in
  (forall n, In n [0; 59; 60; 90061] ->
     Main.format_times 0 (at_ n) = Ok (spec_format n) /\
     TemperatureLogger.format_times 0 (at_ n) = Ok (spec_format n)) /\
  spec_format 0 = "0 secs" /\
  spec_format 59 = "59 secs" /\
  spec_format 60 = "1 mins 0 secs" /\
  spec_format 90061 = "1 days 1 hours 1 mins 1 secs" /\
  spec_format 604800 = "1 weeks 0 secs" /\
  Main.format_times 0 (at_ 604800) = Ok "1 weeks 0 secs" /\
  TemperatureLogger.format_times 0 (at_ 604800) = Ok "1 weeks0 secs".
Proof.
  cbv zeta. split.
  - intros n [<-|[<-|[<-|[<-|[]]]]]; split; vm_compute; reflexivity.
  - repeat split; vm_compute; reflexivity.
Qed.

(** ** Routes *)

(** C8.  [get_route] is the route table of the specification: the path is
    looked up by exact string equality, the four served paths go to their
    handlers and every other path, the key ['/notfound'] included, goes to
    [not_found]; a trailing slash, another case or a query make a path a
    different one. *)
Theorem get_route_exact_path :
  (forall path, get_route path = Ok (spec_route path)) /\
  get_route "/" = Ok index_page /\
  get_route "/garden_temps" = Ok garden_temp_page /\
  get_route "/method=%22post%22?toggle_led=On" = Ok led_on /\
  get_route "/method=%22post%22?toggle_led=Off" = Ok led_off /\
  get_route "/nonexistent" = Ok not_found /\
  get_route "/garden_temps/" = Ok not_found /\
  get_route "/Garden_temps" = Ok not_found /\
  get_route "/?x=1" = Ok not_found /\
  get_route "" = Ok not_found.
Proof.
  split; [|repeat split; vm_compute; reflexivity].
  intros path. unfold spec_route.
  destruct (String.eqb_spec path "/") as [->|H1]; [vm_compute; reflexivity|].
  destruct (String.eqb_spec path "/garden_temps") as [->|H2]; [vm_compute; reflexivity|].
  destruct (String.eqb_spec path "/method=%22post%22?toggle_led=On") as [->|H3];
    [vm_compute; reflexivity|].
  destruct (String.eqb_spec path "/method=%22post%22?toggle_led=Off") as [->|H4];
    [vm_compute; reflexivity|].
  destruct (decide (path = "/notfound")) as [->|H5]; [vm_compute; reflexivity|].
  unfold get_route, paths.
  rewrite !lookup_insert_ne, lookup_empty by congruence.
  vm_compute. reflexivity.
Qed.

(** ** The request line *)

Lemma CRLF_has_no_marker : Py.contains "HTTP/1.1" CRLF = false.
Proof. reflexivity. Qed.

Lemma read_request_stop (rest : list string) (m p : string) :
  read_request (CRLF :: rest) m p = Parsed m p.
Proof. reflexivity. Qed.

Lemma read_request_skip (req : string) (rest : list string) (m p : string) :
  Py.contains "HTTP/1.1" req = false -> req <> CRLF ->
  read_request (req :: rest) m p = read_request rest m p.
Proof.
  intros Hc Hne. cbn [read_request]. rewrite Hc.
  destruct (String.eqb_spec req CRLF); [contradiction | reflexivity].
Qed.

Lemma read_request_assign (req : string) (rest : list string) (m p m' p' : string) fs :
  Py.contains "HTTP/1.1" req = true ->
  Py.split " " req = m' :: p' :: fs ->
  read_request (req :: rest) m p = read_request rest m' p'.
Proof.
  intros Hc Hs. cbn [read_request]. rewrite Hc, Hs.
  unfold Py.subscript; simpl.
  destruct (String.eqb_spec req CRLF) as [->|]; [|reflexivity].
  rewrite CRLF_has_no_marker in Hc. discriminate.
Qed.

(** Lines with no marker change nothing, and marker lines that have two
    fields only change [method] and [path]: reading goes on past them. *)
Lemma read_request_prefix (pre rest : list string) :
  Forall (fun x => x <> CRLF) pre ->
  Forall (fun x => Py.contains "HTTP/1.1" x = true ->
                   exists m p fs, Py.split " " x = m :: p :: fs) pre ->
  forall m p, exists m' p',
    read_request (pre ++ rest) m p = read_request rest m' p' /\
    (Forall (fun x => Py.contains "HTTP/1.1" x = false) pre -> m' = m /\ p' = p).
Proof.
  induction pre as [|x pre IH]; intros Hne Hf m p.
  - exists m, p. split; [reflexivity | intros _; split; reflexivity].
  - apply Forall_cons in Hne as [Hx Hne]. apply Forall_cons in Hf as [Hfx Hf].
    destruct (Py.contains "HTTP/1.1" x) eqn:Hc.
    + destruct (Hfx eq_refl) as (m1 & p1 & fs & Hs).
      destruct (IH Hne Hf m1 p1) as (m' & p' & Hrun & _).
      exists m', p'. split.
      * change ((x :: pre) ++ rest) with (x :: (pre ++ rest)).
        rewrite (read_request_assign x _ m p m1 p1 fs Hc Hs). exact Hrun.
      * intros Hno. apply Forall_cons in Hno as [Hno _]. congruence.
    + destruct (IH Hne Hf m p) as (m' & p' & Hrun & Hsame).
      exists m', p'. split.
      * change ((x :: pre) ++ rest) with (x :: (pre ++ rest)).
        rewrite (read_request_skip x _ m p Hc Hx). exact Hrun.
      * intros Hno. apply Forall_cons in Hno as [_ Hno]. apply Hsame, Hno.
Qed.

(** C4, as the code has it.  Take a stream that holds a line equal to
    CR LF and in which every line with the marker before the first such
    line has at least one space.  Reading stops at that first CR LF line.
    Of the lines before it, those without the marker are passed over; every
    line with the marker sets [method] and [path] to fields 0 and 1 of the
    line cut at each single space, so the values handed to the router are
    those of the last such line ([l] below), and the initial empty strings
    when there is none.  (Streams without a CR LF line and marker lines
    without a space are outside this statement.) *)
Theorem read_request_last_marker_line
    (pre post rest : list string) (l method path : string) (fields : list string)
    (m0 p0 : string) :
  Forall (fun x => x <> CRLF) pre ->
  Forall (fun x => Py.contains "HTTP/1.1" x = true ->
                   exists m p fs, Py.split " " x = m :: p :: fs) pre ->
  Py.contains "HTTP/1.1" l = true ->
  Py.split " " l = method :: path :: fields ->
  Forall (fun x => x <> CRLF /\ Py.contains "HTTP/1.1" x = false) post ->
  read_request (pre ++ l :: post ++ CRLF :: rest) m0 p0 = Parsed method path /\
  read_request (post ++ CRLF :: rest) m0 p0 = Parsed m0 p0.
Proof.
  intros Hne Hf Hc Hs Hpost.
  assert (Hskip : forall m p, read_request (post ++ CRLF :: rest) m p = Parsed m p).
  { intros m p.
    destruct (read_request_prefix post (CRLF :: rest)) with (m := m) (p := p)
      as (m' & p' & Hrun & Hsame).
    - eapply Forall_impl; [exact Hpost | intros x [H _]; exact H].
    - eapply Forall_impl; [exact Hpost | intros x [_ H] H'; congruence].
    - destruct Hsame as [-> ->].
      + eapply Forall_impl; [exact Hpost | intros x [_ H]; exact H].
      + rewrite Hrun. apply read_request_stop. }
  split; [|apply Hskip].
  destruct (read_request_prefix pre (l :: post ++ CRLF :: rest) Hne Hf m0 p0)
    as (m' & p' & Hrun & _).
  rewrite Hrun, (read_request_assign l _ m' p' method path fields Hc Hs).
  apply Hskip.
Qed.

Lemma read_request_last_marker_line_witness :
  read_request
    ([ "GET /a HTTP/1.1" +:+ CRLF ] ++
     ("Via: HTTP/1.1 proxy" +:+ CRLF) :: [ "Host: pico" +:+ CRLF ] ++ CRLF :: [ "body" ])
    "" "" = Parsed "Via:" "HTTP/1.1" /\
  read_request ([ "Host: pico" +:+ CRLF ] ++ CRLF :: [ "body" ]) "" "" = Parsed "" "".
Proof.
  apply (read_request_last_marker_line
           [ "GET /a HTTP/1.1" +:+ CRLF ] [ "Host: pico" +:+ CRLF ] [ "body" ]
           ("Via: HTTP/1.1 proxy" +:+ CRLF) "Via:" "HTTP/1.1" [ "proxy" +:+ CRLF ] "" "").
  - repeat constructor. discriminate.
  - repeat constructor. intros _. exists "GET", "/a", [ "HTTP/1.1" +:+ CRLF ]. reflexivity.
  - reflexivity.
  - reflexivity.
  - repeat constructor. discriminate.
Defined.

(** C4, as the specification has it, fails on two counts: with two marker
    lines the router gets the fields of the second, not of the first; and a
    request line with two spaces in a row has an empty field 1, where a cut
    on whitespace gives the path. *)
Lemma read_request_not_first_marker_line :
  let two := [ "GET / HTTP/1.1" +:+ CRLF; "Via: HTTP/1.1 proxy" +:+ CRLF; CRLF ] in
  let wide := [ "GET  / HTTP/1.1" +:+ CRLF; CRLF ] in
  (spec_request two = Some ("GET", "/") /\
   read_request two "" "" = Parsed "Via:" "HTTP/1.1") /\
  (spec_request wide = Some ("GET", "/") /\
   read_request wide "" "" = Parsed "GET" "").
Proof. cbv zeta. repeat split; vm_compute; reflexivity. Qed.

(** The same lines in [src/temperature_logger.py]: two completed ticks
    below zero, and the reported maximum is still the initial 0. *)
Example TemperatureLogger_max_after_two_cold_ticks :
  let (r, w') := TemperatureLogger.cache_temp [(-10)%Q; (-5)%Q] world_init in
  r = Ok tt /\
  temp_f_min (self w') = (-10)%Q /\ temp_f_max (self w') = 0%Q /\
  thresh_times (self w') = [2; 0; 0; 0; 0].
Proof. vm_compute. repeat split. Qed.

(** * Further properties of the code *)

(** ** The classifier, read backwards *)

(** X1.  The five bands are disjoint, so for every reading the filter keeps at
    most one band: either none, and [on_idx] raises [IndexError], or exactly
    one, and [on_idx] is its position in the table and the reading lies
    strictly inside it.  [thresholds.index] never raises [ValueError]. *)
Theorem on_idx_sound (t : Q) :
  (on_item t = [] /\ on_idx t = Raise IndexError) \/
  (exists i lo hi,
     thresholds !! i = Some (lo, hi) /\
     (inject_Z lo < t)%Q /\ (t < inject_Z hi)%Q /\
     on_item t = [(lo, hi)] /\ on_idx t = Ok i).
Proof.
  unfold on_idx. band_cases t; try (exfalso; lra);
    first
      [ left; split; reflexivity
      | right; exists 0%nat, (-40), 32; unfold inject_Z; repeat split; tauto
      | right; exists 1%nat, 32, 37; unfold inject_Z; repeat split; tauto
      | right; exists 2%nat, 37, 60; unfold inject_Z; repeat split; tauto
      | right; exists 3%nat, 60, 85; unfold inject_Z; repeat split; tauto
      | right; exists 4%nat, 86, 176; unfold inject_Z; repeat split; tauto ].
Qed.

(** ** The sampler of [src/main.py] *)

(** X2.  Whatever the readings, [cache_temp] of [src/main.py] leaves its loop
    in the first round with an exception: the first reading is stored in
    [temp_f_latest] and folded into the extrema, the later readings are
    never looked at, and no pin and no counter is written. *)
Theorem Main_cache_temp_stops_at_first_reading (t : Q) (rs : list Q) (w : World) :
  Main.cache_temp (t :: rs) w = Main.cache_temp_body t w /\
  (exists e, fst (Main.cache_temp (t :: rs) w) = Raise e) /\
  self (snd (Main.cache_temp (t :: rs) w)) = record_temp t (self w) /\
  temp_f_latest (self (snd (Main.cache_temp (t :: rs) w))) = t /\
  pins (snd (Main.cache_temp (t :: rs) w)) = pins w.
Proof.
  assert (H : Main.cache_temp (t :: rs) w = Main.cache_temp_body t w).
  { unfold Main.cache_temp. simpl for_each. unfold bind.
    destruct (Main_cache_temp_body_raises t w) as [e He].
    destruct (Main.cache_temp_body t w) as [[u|e'] w']; simpl in He;
      [discriminate | reflexivity]. }
  rewrite H. split; [reflexivity|]. split; [apply Main_cache_temp_body_raises|].
  rewrite Main_cache_temp_body_eq. repeat split.
Qed.

(** ** The sampler of [src/temperature_logger.py] *)

Lemma TemperatureLogger_cache_temp_body_band (t : Q) (i : nat) (w : World) :
  on_idx t = Ok i ->
  TemperatureLogger.cache_temp_body t w =
    TemperatureLogger.set_leds i
      {| self := record_temp t (self w); pins := pins w |}.
Proof.
  intros H. unfold TemperatureLogger.cache_temp_body, bind.
  rewrite sample_eq, H. reflexivity.
Qed.

(** X3.  After a tick of [src/temperature_logger.py] whose reading falls in
    band [i], the pin of band [i] is high and the pins of the four other
    bands are low, whatever they were; the watchdog, connection and user
    pins are as before. *)
Theorem TemperatureLogger_tick_lights_one_band
    (t : Q) (i : nat) (w : World) (a b c d e : Z) :
  on_idx t = Ok i ->
  thresh_times (self w) = [a; b; c; d; e] ->
  let w' := snd (TemperatureLogger.cache_temp_body t w) in
  (forall j p, thresh_leds !! j = Some p ->
     level p (pins w') = Nat.eqb j i) /\
  level watchdog_led (pins w') = level watchdog_led (pins w) /\
  level http_connection_led (pins w') = level http_connection_led (pins w) /\
  level user_led (pins w') = level user_led (pins w).
Proof.
  intros Hi Hw. cbv zeta.
  rewrite (TemperatureLogger_cache_temp_body_band t i w Hi).
  rewrite (TemperatureLogger_set_leds_eq i _ a b c d e);
    [ | apply (on_idx_lt t), Hi | exact Hw ].
  split; [|repeat split].
  intros j p Hj.
  do 5 (destruct j as [|j]; [injection Hj as <-; reflexivity|]).
  destruct j; discriminate.
Qed.

Lemma TemperatureLogger_tick_lights_one_band_witness :
  let w' := snd (TemperatureLogger.cache_temp_body 70 world_init) in
  (forall j p, thresh_leds !! j = Some p ->
     level p (pins w') = Nat.eqb j 3) /\
  level watchdog_led (pins w') = level watchdog_led (pins world_init) /\
  level http_connection_led (pins w') = level http_connection_led (pins world_init) /\
  level user_led (pins w') = level user_led (pins world_init).
Proof.
  apply (TemperatureLogger_tick_lights_one_band 70 3 world_init 0 0 0 0 0);
    reflexivity.
Defined.

Lemma ticks_in_band_total (rs : list Q) :
  Forall (fun t => exists i, on_idx t = Ok i) rs ->
  (ticks_in_band 0 rs + ticks_in_band 1 rs + ticks_in_band 2 rs +
   ticks_in_band 3 rs + ticks_in_band 4 rs = length rs)%nat.
Proof.
  induction 1 as [|t rs [j Hj] _ IH]; [reflexivity|].
  rewrite !ticks_in_band_cons. unfold classified_to. rewrite Hj.
  pose proof (on_idx_lt t j Hj) as Hlt. simpl length.
  do 5 (destruct j as [|j]; [simpl; lia|]). lia.
Qed.

(** X4.  A run of [src/temperature_logger.py] from the initial state over [N]
    readings that all fall in a band completes every tick; counter [i] is
    then the number of readings classified to band [i], and the five
    counters add up to [N]. *)
Theorem TemperatureLogger_counters_after_run (readings : list Q) :
  Forall (fun t => exists i, on_idx t = Ok i) readings ->
  exists w',
    TemperatureLogger.cache_temp readings world_init = (Ok tt, w') /\
    thresh_times (self w') =
      [ Z.of_nat (ticks_in_band 0 readings);
        Z.of_nat (ticks_in_band 1 readings);
        Z.of_nat (ticks_in_band 2 readings);
        Z.of_nat (ticks_in_band 3 readings);
        Z.of_nat (ticks_in_band 4 readings) ] /\
    sum_Z (thresh_times (self w')) = Z.of_nat (length readings).
Proof.
  intros H.
  destruct (TemperatureLogger_counts_ticks readings H world_init 0 0 0 0 0 eq_refl)
    as (w' & Hrun & Hcount).
  exists w'. split; [exact Hrun|].
  assert (Hts : thresh_times (self w') =
      [ Z.of_nat (ticks_in_band 0 readings);
        Z.of_nat (ticks_in_band 1 readings);
        Z.of_nat (ticks_in_band 2 readings);
        Z.of_nat (ticks_in_band 3 readings);
        Z.of_nat (ticks_in_band 4 readings) ]).
  { apply list_eq. intros i. rewrite Hcount.
    do 5 (destruct i as [|i]; [reflexivity|]). reflexivity. }
  split; [exact Hts|].
  rewrite Hts. unfold sum_Z; simpl fold_right.
  pose proof (ticks_in_band_total readings H). lia.
Qed.

Lemma TemperatureLogger_counters_after_run_witness :
  exists w',
    TemperatureLogger.cache_temp [70; 33; 71]%Q world_init = (Ok tt, w') /\
    thresh_times (self w') =
      [ Z.of_nat (ticks_in_band 0 [70; 33; 71]%Q);
        Z.of_nat (ticks_in_band 1 [70; 33; 71]%Q);
        Z.of_nat (ticks_in_band 2 [70; 33; 71]%Q);
        Z.of_nat (ticks_in_band 3 [70; 33; 71]%Q);
        Z.of_nat (ticks_in_band 4 [70; 33; 71]%Q) ] /\
    sum_Z (thresh_times (self w')) = Z.of_nat (length [70; 33; 71]%Q).
Proof.
  apply (TemperatureLogger_counters_after_run [70; 33; 71]%Q).
  repeat constructor; eexists; vm_compute; reflexivity.
Defined.

Lemma for_each_app {A} (l1 l2 : list A) (body : A -> M unit) (w : World) :
  for_each (l1 ++ l2) body w =
    match for_each l1 body w with
    | (Ok _, w1) => for_each l2 body w1
    | (Raise e, w1) => (Raise e, w1)
    end.
Proof.
  revert w. induction l1 as [|x l1 IH]; intros w; [reflexivity|].
  change ((x :: l1) ++ l2) with (x :: (l1 ++ l2)). simpl for_each. unfold bind.
  destruct (body x w) as [[u|e] w1]; [apply IH | reflexivity].
Qed.

(** X5.  A run of [src/temperature_logger.py] ends at the first reading that
    no band accepts: the loop is left with [IndexError], that reading is
    already stored as [temp_f_latest], the counters hold the ticks before
    it, and the readings after it are never taken. *)
Theorem TemperatureLogger_stops_at_unclassified
    (pre : list Q) (t : Q) (rest : list Q) (w : World) (a b c d e : Z) :
  Forall (fun x => exists i, on_idx x = Ok i) pre ->
  on_item t = [] ->
  thresh_times (self w) = [a; b; c; d; e] ->
  exists w',
    TemperatureLogger.cache_temp (pre ++ t :: rest) w = (Raise IndexError, w') /\
    temp_f_latest (self w') = t /\
    forall i, thresh_times (self w') !! i =
              (fun n => n + Z.of_nat (ticks_in_band i pre))
                <$> thresh_times (self w) !! i.
Proof.
  intros Hpre Ht Hw.
  destruct (TemperatureLogger_counts_ticks pre Hpre w a b c d e Hw)
    as (w1 & Hrun & Hcount).
  eexists. unfold TemperatureLogger.cache_temp in *.
  rewrite for_each_app, Hrun. simpl for_each. unfold bind.
  rewrite (TemperatureLogger_cache_temp_body_no_band t w1 Ht).
  split; [reflexivity|]. split; [reflexivity|]. exact Hcount.
Qed.

Lemma TemperatureLogger_stops_at_unclassified_witness :
  exists w',
    TemperatureLogger.cache_temp ([70; 33]%Q ++ 85%Q :: [71]%Q) world_init
      = (Raise IndexError, w') /\
    temp_f_latest (self w') = 85%Q /\
    forall i, thresh_times (self w') !! i =
              (fun n => n + Z.of_nat (ticks_in_band i [70; 33]%Q))
                <$> thresh_times (self world_init) !! i.
Proof.
  apply (TemperatureLogger_stops_at_unclassified
           [70; 33]%Q 85%Q [71]%Q world_init 0 0 0 0 0).
  - repeat constructor; eexists; vm_compute; reflexivity.
  - reflexivity.
  - reflexivity.
Defined.

(** ** The running extrema, again *)

Lemma min_le_l (a t : Q) : (Py.min a t <= a)%Q.
Proof.
  unfold Py.min. destruct (Py.lt t a) eqn:E.
  - apply lt_true in E. apply Qlt_le_weak, E.
  - apply Qle_refl.
Qed.

Lemma max_ge_l (a t : Q) : (a <= Py.max a t)%Q.
Proof.
  unfold Py.max. destruct (Py.lt a t) eqn:E.
  - apply lt_true in E. apply Qlt_le_weak, E.
  - apply Qle_refl.
Qed.

Lemma step_extrema_monotone (f : File) (o : Op) (w : World) :
  (temp_f_min (self (step f o w)) <= temp_f_min (self w))%Q /\
  (temp_f_max (self w) <= temp_f_max (self (step f o w)))%Q.
Proof.
  destruct o as [|t| |path].
  - split; apply Qle_refl.
  - rewrite (tick_view temp_f_min (fun _ _ _ _ _ _ => eq_refl) f t w).
    rewrite (tick_view temp_f_max (fun _ _ _ _ _ _ => eq_refl) f t w).
    split; [apply min_le_l | apply max_ge_l].
  - split; apply Qle_refl.
  - unfold step.
    rewrite (keeps_respond temp_f_min path w), (keeps_respond temp_f_max path w).
    split; apply Qle_refl.
Qed.

(** X6.  Under every schedule of the duties, in both files, [temp_f_min] never
    goes up and [temp_f_max] never goes down. *)
Theorem extrema_monotone (f : File) (ops : list Op) (w : World) :
  (temp_f_min (self (run f ops w)) <= temp_f_min (self w))%Q /\
  (temp_f_max (self w) <= temp_f_max (self (run f ops w)))%Q.
Proof.
  revert w. induction ops as [|o ops IH]; intros w.
  - split; apply Qle_refl.
  - change (run f (o :: ops) w) with (run f ops (step f o w)).
    destruct (IH (step f o w)) as [H1 H2].
    destruct (step_extrema_monotone f o w) as [H3 H4].
    split; eapply Qle_trans; eassumption.
Qed.

Lemma min_cases (a t : Q) : Py.min a t = a \/ Py.min a t = t.
Proof. unfold Py.min. destruct (Py.lt t a); auto. Qed.

Lemma max_cases (a t : Q) : Py.max a t = a \/ Py.max a t = t.
Proof. unfold Py.max. destruct (Py.lt a t); auto. Qed.

Lemma classified_below_176 (t : Q) (i : nat) : on_idx t = Ok i -> (t < 176)%Q.
Proof.
  intros H. destruct (Qlt_le_dec t 176) as [Hlt|Hge]; [exact Hlt|].
  assert (Hnil : on_item t = []) by (apply on_item_nil_iff; tauto).
  rewrite (on_idx_no_band t Hnil) in H. discriminate.
Qed.

Lemma TemperatureLogger_run_extrema (rs : list Q) :
  Forall (fun t => exists i, on_idx t = Ok i) rs ->
  forall (w : World) (a b c d e : Z),
    thresh_times (self w) = [a; b; c; d; e] ->
    exists w',
      TemperatureLogger.cache_temp rs w = (Ok tt, w') /\
      (forall t, In t rs ->
         (temp_f_min (self w') <= t)%Q /\ (t <= temp_f_max (self w'))%Q) /\
      (temp_f_min (self w') <= temp_f_min (self w))%Q /\
      (temp_f_max (self w) <= temp_f_max (self w'))%Q /\
      (temp_f_min (self w') = temp_f_min (self w) \/ In (temp_f_min (self w')) rs) /\
      (temp_f_max (self w') = temp_f_max (self w) \/ In (temp_f_max (self w')) rs).
Proof.
  induction 1 as [|t rs [j Hj] _ IH]; intros w a b c d e Hw.
  - exists w. split; [reflexivity|]. split; [intros t []|].
    repeat split; try apply Qle_refl; left; reflexivity.
  - destruct (TemperatureLogger_tick_counts t j w a b c d e Hj Hw) as (w1 & Htick & Hts).
    destruct (alter_five j a b c d e) as (a' & b' & c' & d' & e' & Halt).
    rewrite Halt in Hts.
    destruct (IH w1 a' b' c' d' e' Hts)
      as (w' & Hrun & Hall & Hmin & Hmax & Hminc & Hmaxc).
    pose proof (tick_view temp_f_min (fun _ _ _ _ _ _ => eq_refl)
                  temperature_logger_py t w) as Vmin.
    pose proof (tick_view temp_f_max (fun _ _ _ _ _ _ => eq_refl)
                  temperature_logger_py t w) as Vmax.
    unfold step in Vmin, Vmax. rewrite Htick in Vmin, Vmax.
    change (temp_f_min (self w1) = Py.min (temp_f_min (self w)) t) in Vmin.
    change (temp_f_max (self w1) = Py.max (temp_f_max (self w)) t) in Vmax.
    pose proof (min_le_r (temp_f_min (self w)) t) as M1.
    pose proof (min_le_l (temp_f_min (self w)) t) as M2.
    pose proof (max_ge_r (temp_f_max (self w)) t) as M3.
    pose proof (max_ge_l (temp_f_max (self w)) t) as M4.
    rewrite <- Vmin in M1, M2. rewrite <- Vmax in M3, M4.
    exists w'. split.
    { unfold TemperatureLogger.cache_temp in *. simpl for_each. unfold bind.
      rewrite Htick. exact Hrun. }
    split.
    { intros x [<-|Hx]; [|apply Hall, Hx].
      split; eapply Qle_trans; eassumption. }
    split; [eapply Qle_trans; eassumption|].
    split; [eapply Qle_trans; eassumption|].
    split.
    + destruct Hminc as [E|Hin]; [|right; right; exact Hin].
      rewrite E, Vmin.
      destruct (min_cases (temp_f_min (self w)) t) as [->| ->];
        [left; reflexivity | right; left; reflexivity].
    + destruct Hmaxc as [E|Hin]; [|right; right; exact Hin].
      rewrite E, Vmax.
      destruct (max_cases (temp_f_max (self w)) t) as [->| ->];
        [left; reflexivity | right; left; reflexivity].
Qed.

(** X7.  After a non-empty run of [src/temperature_logger.py] from the initial
    state over readings that all fall in a band, [temp_f_min] is the least
    of the readings (one of them, and below or equal to each); [temp_f_max]
    is above or equal to each reading, and it is one of them unless it is
    still the initial 0, which happens only when no reading is above 0. *)
Theorem TemperatureLogger_extrema_after_run (readings : list Q) :
  Forall (fun t => exists i, on_idx t = Ok i) readings ->
  readings <> [] ->
  exists w',
    TemperatureLogger.cache_temp readings world_init = (Ok tt, w') /\
    In (temp_f_min (self w')) readings /\
    (forall t, In t readings -> (temp_f_min (self w') <= t)%Q) /\
    (forall t, In t readings -> (t <= temp_f_max (self w'))%Q) /\
    (In (temp_f_max (self w')) readings \/
     (temp_f_max (self w') = 0%Q /\ forall t, In t readings -> (t <= 0)%Q)).
Proof.
  intros Hcl Hne.
  destruct (TemperatureLogger_run_extrema readings Hcl world_init 0 0 0 0 0 eq_refl)
    as (w' & Hrun & Hall & _ & _ & Hminc & Hmaxc).
  exists w'. split; [exact Hrun|]. split; [|split; [|split]].
  - destruct Hminc as [E|Hin]; [|exact Hin]. exfalso.
    destruct readings as [|t rs]; [congruence|].
    apply Forall_cons in Hcl as [[i Hi] _].
    pose proof (classified_below_176 t i Hi) as Hlt.
    destruct (Hall t (or_introl eq_refl)) as [Hle _].
    rewrite E in Hle. simpl in Hle. lra.
  - intros t Ht. apply Hall, Ht.
  - intros t Ht. apply Hall, Ht.
  - destruct Hmaxc as [E|Hin]; [right|left; exact Hin].
    split; [exact E|]. intros t Ht.
    destruct (Hall t Ht) as [_ Hle]. rewrite E in Hle. exact Hle.
Qed.

Lemma TemperatureLogger_extrema_after_run_witness :
  exists w',
    TemperatureLogger.cache_temp [70; 33; 71]%Q world_init = (Ok tt, w') /\
    In (temp_f_min (self w')) [70; 33; 71]%Q /\
    (forall t, In t [70; 33; 71]%Q -> (temp_f_min (self w') <= t)%Q) /\
    (forall t, In t [70; 33; 71]%Q -> (t <= temp_f_max (self w'))%Q) /\
    (In (temp_f_max (self w')) [70; 33; 71]%Q \/
     (temp_f_max (self w') = 0%Q /\ forall t, In t [70; 33; 71]%Q -> (t <= 0)%Q)).
Proof.
  apply (TemperatureLogger_extrema_after_run [70; 33; 71]%Q).
  - repeat constructor; eexists; vm_compute; reflexivity.
  - discriminate.
Defined.

(** ** The counters under a schedule *)

Lemma step_counters (f : File) (o : Op) (w : World) (a b c d e : Z) :
  thresh_times (self w) = [a; b; c; d; e] ->
  exists a' b' c' d' e',
    thresh_times (self (step f o w)) = [a'; b'; c'; d'; e'] /\
    a <= a' /\ b <= b' /\ c <= c' /\ d <= d' /\ e <= e' /\
    a' + b' + c' + d' + e' =
      a + b + c + d + e +
      (if is_sampling o then
         match f, o with
         | temperature_logger_py, Sampling t =>
             match on_idx t with Ok _ => 1 | Raise _ => 0 end
         | _, _ => 0
         end
       else 0).
Proof.
  intros Hw. destruct o as [|t| |path].
  - exists a, b, c, d, e. simpl. rewrite Hw. repeat split; lia.
  - destruct f.
    + exists a, b, c, d, e. simpl. rewrite Main_cache_temp_body_eq. simpl.
      rewrite Hw. repeat split; lia.
    + simpl. destruct (on_idx t) as [i|x] eqn:Hi.
      * destruct (TemperatureLogger_tick_counts t i w a b c d e Hi Hw)
          as (w1 & Htick & Hts).
        rewrite Htick. simpl. rewrite Hts.
        pose proof (on_idx_lt t i Hi) as Hlt.
        do 5 (destruct i as [|i];
              [ do 5 eexists; split; [reflexivity | repeat split; lia] |]).
        lia.
      * exists a, b, c, d, e.
        unfold TemperatureLogger.cache_temp_body, bind. rewrite sample_eq, Hi.
        simpl. rewrite Hw. repeat split; lia.
  - exists a, b, c, d, e. simpl. rewrite Hw. repeat split; lia.
  - exists a, b, c, d, e. unfold step.
    rewrite (keeps_respond thresh_times path w), Hw. simpl. repeat split; lia.
Qed.

(** X8.  Under every schedule of the duties, in both files, the counter list
    keeps its five entries, no counter ever goes down, and the counters
    together grow by at most one per sampling tick of the schedule. *)
Theorem counters_under_schedule (f : File) (ops : list Op) (w : World) (a b c d e : Z) :
  thresh_times (self w) = [a; b; c; d; e] ->
  exists a' b' c' d' e',
    thresh_times (self (run f ops w)) = [a'; b'; c'; d'; e'] /\
    a <= a' /\ b <= b' /\ c <= c' /\ d <= d' /\ e <= e' /\
    a' + b' + c' + d' + e' <=
      a + b + c + d + e + Z.of_nat (length (List.filter is_sampling ops)).
Proof.
  revert w a b c d e. induction ops as [|o ops IH]; intros w a b c d e Hw.
  - exists a, b, c, d, e. simpl. split; [exact Hw | repeat split; lia].
  - change (run f (o :: ops) w) with (run f ops (step f o w)).
    destruct (step_counters f o w a b c d e Hw)
      as (a1 & b1 & c1 & d1 & e1 & H1 & ? & ? & ? & ? & ? & Hs).
    destruct (IH (step f o w) a1 b1 c1 d1 e1 H1)
      as (a' & b' & c' & d' & e' & H' & ? & ? & ? & ? & ? & Hs').
    exists a', b', c', d', e'. split; [exact H'|].
    simpl List.filter.
    assert (Hb : a1 + b1 + c1 + d1 + e1 <=
                 a + b + c + d + e + (if is_sampling o then 1 else 0)).
    { rewrite Hs. destruct o as [|t| |path]; simpl; try lia.
      destruct f; [lia|]. destruct (on_idx t); lia. }
    destruct (is_sampling o); simpl length; repeat split; lia.
Qed.

Lemma counters_under_schedule_witness :
  exists a' b' c' d' e',
    thresh_times
      (self (run temperature_logger_py
                 [Heartbeat; Sampling 70; Accept; Sampling 85; Sampling 33]
                 world_init)) = [a'; b'; c'; d'; e'] /\
    0 <= a' /\ 0 <= b' /\ 0 <= c' /\ 0 <= d' /\ 0 <= e' /\
    a' + b' + c' + d' + e' <=
      0 + 0 + 0 + 0 + 0 +
      Z.of_nat (length (List.filter is_sampling
                          [Heartbeat; Sampling 70; Accept; Sampling 85; Sampling 33])).
Proof.
  apply (counters_under_schedule temperature_logger_py
           [Heartbeat; Sampling 70; Accept; Sampling 85; Sampling 33]
           world_init 0 0 0 0 0).
  reflexivity.
Defined.

(** ** Who writes which pin *)

Lemma level_pin_value_same (p : Pin) (v : bool) (h : Pins) :
  level p (pin_value p v h) = v.
Proof. destruct p, h; reflexivity. Qed.

Lemma level_pin_value_other (p q : Pin) (v : bool) (h : Pins) :
  q <> p -> level p (pin_value q v h) = level p h.
Proof. intros H. destruct p, q, h; try reflexivity; contradiction. Qed.

Lemma level_pin_toggle_same (p : Pin) (h : Pins) :
  level p (pin_toggle p h) = negb (level p h).
Proof. apply level_pin_value_same. Qed.

Lemma level_pin_toggle_other (p q : Pin) (h : Pins) :
  q <> p -> level p (pin_toggle q h) = level p h.
Proof. apply level_pin_value_other. Qed.

Section PinFrame.

Variable p : Pin.

Lemma keeps_pin_ret {A} (a : A) : keeps_pin p (ret a).
Proof. intros w. reflexivity. Qed.

Lemma keeps_pin_bind {A B} (m : M A) (k : A -> M B) :
  keeps_pin p m -> (forall a, keeps_pin p (k a)) -> keeps_pin p (bind m k).
Proof.
  intros Hm Hk w. unfold bind. specialize (Hm w).
  destruct (m w) as [[a|e] w']; simpl in *.
  - rewrite Hk. exact Hm.
  - exact Hm.
Qed.

Lemma keeps_pin_bind_lift {A B} (r : result A) (k : A -> M B) :
  (forall a, r = Ok a -> keeps_pin p (k a)) -> keeps_pin p (bind (lift r) k).
Proof.
  intros Hk w. unfold bind, lift. destruct r as [a|e]; [|reflexivity].
  apply (Hk a eq_refl).
Qed.

Lemma keeps_pin_for_each {A} (l : list A) (body : A -> M unit) :
  (forall x, keeps_pin p (body x)) -> keeps_pin p (for_each l body).
Proof.
  intros Hb. induction l as [|x l IH]; simpl.
  - apply keeps_pin_ret.
  - apply keeps_pin_bind; [apply Hb | intros _; exact IH].
Qed.

Lemma keeps_pin_bump_thresh_time (idx : nat) : keeps_pin p (bump_thresh_time idx).
Proof.
  intros w. unfold bump_thresh_time, bind, get_self, lift, put_self.
  destruct (Py.subscript (thresh_times (self w)) idx); reflexivity.
Qed.

Lemma keeps_pin_pin_value (q : Pin) (v : bool) :
  q <> p -> keeps_pin p (modify_pins (pin_value q v)).
Proof. intros H w. simpl. apply level_pin_value_other, H. Qed.

Lemma keeps_pin_TemperatureLogger_set_leds (i : nat) :
  is_band_pin p = false -> keeps_pin p (TemperatureLogger.set_leds i).
Proof.
  intros Hp. apply keeps_pin_for_each. intros idx.
  apply keeps_pin_bind_lift. intros led Hled.
  assert (Hne : led <> p).
  { intros ->. unfold Py.subscript, thresh_leds in Hled.
    do 5 (destruct idx as [|idx];
          [simpl in Hled; injection Hled as <-; discriminate Hp|]).
    destruct idx; discriminate Hled. }
  apply keeps_pin_bind; [apply keeps_pin_pin_value, Hne|]. intros _.
  destruct (Nat.eqb idx i); [apply keeps_pin_bump_thresh_time | apply keeps_pin_ret].
Qed.

End PinFrame.

Lemma respond_eq (path : string) (w : World) :
  respond path w =
    match get_route path with
    | Ok h => run_handler h w
    | Raise e => (Raise e, w)
    end.
Proof. unfold respond, bind, lift. destruct (get_route path); reflexivity. Qed.

(** An operation leaves alone every pin it does not write. *)
Lemma step_frame_pins (f : File) (o : Op) (w : World) (p : Pin) :
  writes o p = false ->
  level p (pins (step f o w)) = level p (pins w).
Proof.
  intros H. destruct o as [|t| |path].
  - simpl. apply level_pin_toggle_other. intros <-. discriminate H.
  - destruct f.
    + simpl. rewrite Main_cache_temp_body_eq. reflexivity.
    + simpl in *. unfold TemperatureLogger.cache_temp_body, bind.
      rewrite sample_eq. destruct (on_idx t) as [i|e]; [|reflexivity].
      rewrite (keeps_pin_TemperatureLogger_set_leds p i H). reflexivity.
  - simpl. apply level_pin_toggle_other. intros <-. discriminate H.
  - unfold step. rewrite respond_eq.
    destruct (get_route path) as [h|e]; [|reflexivity].
    destruct h; try reflexivity; simpl;
      apply level_pin_value_other; intros <-; discriminate H.
Qed.

(** X9.  Each operation of a duty writes its own pins only: a heartbeat the
    watchdog pin, a sampling tick the five band pins, the start of a
    connection the connection pin, a routed handler the user pin.  So a pin
    keeps its level over every schedule none of whose operations writes it,
    in both files. *)
Theorem run_writes_own_pins (f : File) (ops : list Op) (w : World) (p : Pin) :
  Forall (fun o => writes o p = false) ops ->
  level p (pins (run f ops w)) = level p (pins w).
Proof.
  intros H. revert w. induction H as [|o ops Ho _ IH]; intros w; [reflexivity|].
  change (run f (o :: ops) w) with (run f ops (step f o w)).
  rewrite IH. apply step_frame_pins, Ho.
Qed.

Lemma run_writes_own_pins_witness :
  level user_led
    (pins (run temperature_logger_py
               [Heartbeat; Sampling 70; Accept; Sampling 85]
               world_init))
    = level user_led (pins world_init).
Proof.
  apply (run_writes_own_pins temperature_logger_py
           [Heartbeat; Sampling 70; Accept; Sampling 85]
           world_init user_led).
  repeat (constructor; [reflexivity|]). constructor.
Defined.

(** ** The blinking pins *)

Lemma step_blink (f : File) (o : Op) (w : World) :
  level watchdog_led (pins (step f o w)) =
    xorb (level watchdog_led (pins w)) (is_heartbeat o) /\
  level http_connection_led (pins (step f o w)) =
    xorb (level http_connection_led (pins w))
         (match o with Accept => true | _ => false end).
Proof.
  destruct o as [|t| |path].
  - split.
    + change (pins (step f Heartbeat w)) with (pin_toggle watchdog_led (pins w)).
      rewrite level_pin_toggle_same. destruct (level _ _); reflexivity.
    + rewrite step_frame_pins by reflexivity. destruct (level _ _); reflexivity.
  - split; rewrite step_frame_pins by reflexivity;
      destruct (level _ _); reflexivity.
  - split.
    + rewrite step_frame_pins by reflexivity. destruct (level _ _); reflexivity.
    + change (pins (step f Accept w)) with (pin_toggle http_connection_led (pins w)).
      rewrite level_pin_toggle_same. destruct (level _ _); reflexivity.
  - split; rewrite step_frame_pins by reflexivity;
      destruct (level _ _); reflexivity.
Qed.

Lemma xorb_step (b x : bool) (n : nat) :
  xorb (xorb b x) (Nat.odd n) = xorb b (Nat.odd (if x then S n else n)).
Proof.
  destruct x; [rewrite Nat.odd_succ, <- Nat.negb_odd|];
    destruct b, (Nat.odd n); reflexivity.
Qed.

(** X10.  The wrapper of [blink_led] toggles its pin once per call and never
    sets it back: after any schedule the watchdog pin differs from its
    initial level exactly when an odd number of heartbeat cycles has run,
    and the connection pin exactly when an odd number of connections has
    been accepted. *)
Theorem blink_led_parity (f : File) (ops : list Op) (w : World) :
  level watchdog_led (pins (run f ops w)) =
    xorb (level watchdog_led (pins w))
         (Nat.odd (length (List.filter is_heartbeat ops))) /\
  level http_connection_led (pins (run f ops w)) =
    xorb (level http_connection_led (pins w))
         (Nat.odd (length (List.filter
                             (fun o => match o with Accept => true | _ => false end)
                             ops))).
Proof.
  revert w. induction ops as [|o ops IH]; intros w.
  - split; symmetry; apply xorb_false_r.
  - change (run f (o :: ops) w) with (run f ops (step f o w)).
    destruct (IH (step f o w)) as [H1 H2]. rewrite H1, H2.
    destruct (step_blink f o w) as [-> ->].
    rewrite !xorb_step. simpl List.filter.
    split.
    + destruct (is_heartbeat o); reflexivity.
    + destruct o; reflexivity.
Qed.

(** ** The user pin *)

Lemma step_user_led (f : File) (o : Op) (w : World) :
  level user_led (pins (step f o w)) =
    match led_command o with
    | Some v => v
    | None => level user_led (pins w)
    end.
Proof.
  destruct o as [|t| |path]; try (apply step_frame_pins; reflexivity).
  unfold step, led_command. rewrite respond_eq.
  destruct (get_route path) as [h|e]; [|reflexivity].
  destruct h; try reflexivity; exact (level_pin_value_same user_led _ (pins w)).
Qed.

Lemma run_user_led_unchanged (f : File) (ops : list Op) (w : World) :
  Forall (fun o => led_command o = None) ops ->
  level user_led (pins (run f ops w)) = level user_led (pins w).
Proof.
  intros H. revert w. induction H as [|o ops Ho _ IH]; intros w; [reflexivity|].
  change (run f (o :: ops) w) with (run f ops (step f o w)).
  rewrite IH, step_user_led, Ho. reflexivity.
Qed.

(** X11.  The user pin shows the last command given through the two toggle
    routes: after a schedule whose last [led_on] or [led_off] request is
    [o], the pin is high for [led_on] and low for [led_off], whatever ran
    before or after; heartbeats, sampling ticks, new connections and the
    other routes never change it. *)
Theorem user_led_last_command
    (f : File) (pre post : list Op) (o : Op) (v : bool) (w : World) :
  led_command o = Some v ->
  Forall (fun o' => led_command o' = None) post ->
  level user_led (pins (run f (pre ++ o :: post) w)) = v.
Proof.
  intros Ho Hpost. rewrite run_app.
  change (run f (o :: post) (run f pre w))
    with (run f post (step f o (run f pre w))).
  rewrite (run_user_led_unchanged f post _ Hpost), step_user_led, Ho.
  reflexivity.
Qed.

Lemma user_led_last_command_witness :
  level user_led
    (pins (run main_py
               ([Respond "/method=%22post%22?toggle_led=On"; Heartbeat] ++
                Respond "/method=%22post%22?toggle_led=Off" ::
                [Sampling 70; Respond "/"; Accept])
               world_init)) = false.
Proof.
  apply (user_led_last_command main_py
           [Respond "/method=%22post%22?toggle_led=On"; Heartbeat]
           [Sampling 70; Respond "/"; Accept]
           (Respond "/method=%22post%22?toggle_led=Off") false world_init).
  - reflexivity.
  - repeat constructor.
Defined.

(** ** Responses *)

Lemma get_route_table (path : string) : get_route path = Ok (spec_route path).
Proof.
  unfold spec_route.
  destruct (String.eqb_spec path "/") as [->|H1]; [vm_compute; reflexivity|].
  destruct (String.eqb_spec path "/garden_temps") as [->|H2]; [vm_compute; reflexivity|].
  destruct (String.eqb_spec path "/method=%22post%22?toggle_led=On") as [->|H3];
    [vm_compute; reflexivity|].
  destruct (String.eqb_spec path "/method=%22post%22?toggle_led=Off") as [->|H4];
    [vm_compute; reflexivity|].
  destruct (decide (path = "/notfound")) as [->|H5]; [vm_compute; reflexivity|].
  unfold get_route, paths.
  rewrite !lookup_insert_ne, lookup_empty by congruence.
  vm_compute. reflexivity.
Qed.

(** X12.  Routing and handling a path never raises and never writes the server
    object; the response starts with the 200 head when the path is one of
    the four served paths and with the 404 head otherwise, and the two
    heads differ. *)
Theorem respond_status (path : string) (w : World) :
  fst (respond path w) = Ok (if served path then head_200 else head_404) /\
  self (snd (respond path w)) = self w /\
  head_200 <> head_404.
Proof.
  rewrite respond_eq, get_route_table. unfold spec_route, served.
  split; [|split; [|discriminate]].
  - destruct (String.eqb path "/"); [reflexivity|].
    destruct (String.eqb path "/garden_temps");
      destruct (String.eqb path "/method=%22post%22?toggle_led=On");
      destruct (String.eqb path "/method=%22post%22?toggle_led=Off");
      reflexivity.
  - destruct (String.eqb path "/"); [reflexivity|].
    destruct (String.eqb path "/garden_temps"); [reflexivity|].
    destruct (String.eqb path "/method=%22post%22?toggle_led=On"); [reflexivity|].
    destruct (String.eqb path "/method=%22post%22?toggle_led=Off"); reflexivity.
Qed.

(** ** Cutting a line at spaces *)

Lemma split_no_sep (sep : ascii) (s : string) :
  ~ In sep (chars s) -> Py.split sep s = [s].
Proof.
  induction s as [|c s IH]; intros H; [reflexivity|].
  simpl in H. cbn [Py.split].
  destruct (Ascii.eqb_spec c sep) as [->|Hne]; [tauto|].
  rewrite IH by tauto. reflexivity.
Qed.

Lemma split_app_sep (sep : ascii) (a b : string) :
  ~ In sep (chars a) ->
  Py.split sep (a +:+ String sep b) = a :: Py.split sep b.
Proof.
  induction a as [|c a IH]; intros H.
  - change (EmptyString +:+ String sep b) with (String sep b).
    cbn [Py.split]. rewrite Ascii.eqb_refl. reflexivity.
  - simpl in H. change (String c a +:+ String sep b) with (String c (a +:+ String sep b)).
    cbn [Py.split].
    destruct (Ascii.eqb_spec c sep) as [->|Hne]; [tauto|].
    rewrite IH by tauto. reflexivity.
Qed.

Lemma split_fields_no_sep (sep : ascii) (s : string) :
  Forall (fun x => ~ In sep (chars x)) (Py.split sep s).
Proof.
  induction s as [|c s IH]; cbn [Py.split].
  - constructor; [intros [] | constructor].
  - destruct (Ascii.eqb_spec c sep) as [->|Hne].
    + constructor; [intros [] | exact IH].
    + destruct (Py.split sep s) as [|x xs].
      * constructor; [|constructor]. simpl. intros [E|[]]. congruence.
      * apply Forall_cons in IH as [Hx Hxs].
        constructor; [|exact Hxs]. simpl. intros [E|Hin]; [congruence | tauto].
Qed.

Lemma contains_app_r (pat a b : string) :
  Py.contains pat b = true -> Py.contains pat (a +:+ b) = true.
Proof.
  intros H. induction a as [|c a IH]; [exact H|].
  change (String c a +:+ b) with (String c (a +:+ b)).
  cbn [Py.contains]. rewrite IH. apply orb_true_r.
Qed.

Lemma request_line_split (method path : string) :
  ~ In " "%char (chars method) -> ~ In " "%char (chars path) ->
  Py.split " " (request_line method path) =
    [method; path; "HTTP/1.1" +:+ CRLF].
Proof.
  intros Hm Hp. unfold request_line.
  change (method +:+ " " +:+ path +:+ " HTTP/1.1" +:+ CRLF)
    with (method +:+ String " " (path +:+ String " " ("HTTP/1.1" +:+ CRLF))).
  rewrite (split_app_sep " " method _ Hm), (split_app_sep " " path _ Hp).
  reflexivity.
Qed.

Lemma request_line_contains_marker (method path : string) :
  Py.contains "HTTP/1.1" (request_line method path) = true.
Proof.
  unfold request_line. apply contains_app_r.
  change (" " +:+ path +:+ " HTTP/1.1" +:+ CRLF)
    with (String " " (path +:+ " HTTP/1.1" +:+ CRLF)).
  apply (contains_app_r "HTTP/1.1" (String " " path)). reflexivity.
Qed.

(** ** Connections *)

Lemma headers_then_blank (headers rest : list string) (m p : string) :
  Forall (fun x => x <> CRLF /\ Py.contains "HTTP/1.1" x = false) headers ->
  read_request (headers ++ CRLF :: rest) m p = Parsed m p.
Proof.
  intros H.
  destruct (read_request_prefix headers (CRLF :: rest)) with (m := m) (p := p)
    as (m' & p' & Hrun & Hsame).
  - eapply Forall_impl; [exact H | intros x [Hx _]; exact Hx].
  - eapply Forall_impl; [exact H | intros x [_ Hx] Hc; congruence].
  - destruct Hsame as [-> ->].
    + eapply Forall_impl; [exact H | intros x [_ Hx]; exact Hx].
    + rewrite Hrun. apply read_request_stop.
Qed.

(** X13.  A request whose first line is [METHOD path HTTP/1.1], followed by
    header lines without the marker and by the empty line, is answered by
    routing [path] in the world with the connection pin toggled; what comes
    after the empty line is not read, and the method plays no part: two
    requests that differ in the method only are answered alike. *)
Theorem handle_client_request_line
    (method method' path : string) (headers rest : list string) (w : World) :
  ~ In " "%char (chars method) ->
  ~ In " "%char (chars method') ->
  ~ In " "%char (chars path) ->
  Forall (fun x => x <> CRLF /\ Py.contains "HTTP/1.1" x = false) headers ->
  handle_client (request_line method path :: headers ++ CRLF :: rest) w =
    Some (respond path
            {| self := self w; pins := pin_toggle http_connection_led (pins w) |}) /\
  handle_client (request_line method' path :: headers ++ CRLF :: rest) w =
    handle_client (request_line method path :: headers ++ CRLF :: rest) w.
Proof.
  intros Hm Hm' Hp Hh.
  assert (H : forall m, ~ In " "%char (chars m) ->
    handle_client (request_line m path :: headers ++ CRLF :: rest) w =
    Some (respond path
            {| self := self w; pins := pin_toggle http_connection_led (pins w) |})).
  { intros m Hmm. unfold handle_client.
    rewrite (read_request_assign _ _ "" "" m path ["HTTP/1.1" +:+ CRLF]
               (request_line_contains_marker m path)
               (request_line_split m path Hmm Hp)).
    rewrite (headers_then_blank headers rest m path Hh). reflexivity. }
  split; [apply H, Hm|]. rewrite (H method Hm), (H method' Hm'). reflexivity.
Qed.

Lemma handle_client_request_line_witness :
  handle_client
    (request_line "GET" "/garden_temps" :: [ "Host: pico" +:+ CRLF ] ++ CRLF :: [ "x" ])
    world_init =
    Some (respond "/garden_temps"
            {| self := self world_init;
               pins := pin_toggle http_connection_led (pins world_init) |}) /\
  handle_client
    (request_line "POST" "/garden_temps" :: [ "Host: pico" +:+ CRLF ] ++ CRLF :: [ "x" ])
    world_init =
  handle_client
    (request_line "GET" "/garden_temps" :: [ "Host: pico" +:+ CRLF ] ++ CRLF :: [ "x" ])
    world_init.
Proof.
  apply (handle_client_request_line "GET" "POST" "/garden_temps"
           [ "Host: pico" +:+ CRLF ] [ "x" ] world_init).
  - simpl. intros H. repeat (destruct H as [H|H]; [discriminate H|]). exact H.
  - simpl. intros H. repeat (destruct H as [H|H]; [discriminate H|]). exact H.
  - simpl. intros H. repeat (destruct H as [H|H]; [discriminate H|]). exact H.
  - repeat constructor. discriminate.
Defined.

(** X14.  A request none of whose lines before the empty line contains
    [HTTP/1.1] (an HTTP/1.0 request, for one) leaves [path] empty and is
    answered with the 404 head, whatever it asks for; only the connection
    pin changes. *)
Theorem handle_client_without_marker (pre rest : list string) (w : World) :
  Forall (fun x => x <> CRLF /\ Py.contains "HTTP/1.1" x = false) pre ->
  handle_client (pre ++ CRLF :: rest) w =
    Some (Ok head_404,
          {| self := self w; pins := pin_toggle http_connection_led (pins w) |}).
Proof.
  intros H. unfold handle_client.
  rewrite (headers_then_blank pre rest "" "" H). reflexivity.
Qed.

Lemma handle_client_without_marker_witness :
  handle_client ([ "GET / HTTP/1.0" +:+ CRLF; "Host: pico" +:+ CRLF ] ++ CRLF :: [])
    world_init =
    Some (Ok head_404,
          {| self := self world_init;
             pins := pin_toggle http_connection_led (pins world_init) |}).
Proof.
  apply (handle_client_without_marker
           [ "GET / HTTP/1.0" +:+ CRLF; "Host: pico" +:+ CRLF ] [] world_init).
  repeat constructor; discriminate.
Defined.

(** X15.  A client that stops sending before the empty line never gets an
    answer: when no line it sent is the empty line (and each marker line
    has its two fields), the read loop does not end. *)
Theorem handle_client_waits_for_blank_line (lines : list string) (w : World) :
  Forall (fun x => x <> CRLF) lines ->
  Forall (fun x => Py.contains "HTTP/1.1" x = true ->
                   exists m p fs, Py.split " " x = m :: p :: fs) lines ->
  handle_client lines w = None.
Proof.
  intros Hne Hf. unfold handle_client.
  destruct (read_request_prefix lines [] Hne Hf "" "") as (m' & p' & Hrun & _).
  rewrite app_nil_r in Hrun. rewrite Hrun. reflexivity.
Qed.

Lemma handle_client_waits_for_blank_line_witness :
  handle_client [ request_line "GET" "/"; "Host: pico" +:+ CRLF ] world_init = None.
Proof.
  apply (handle_client_waits_for_blank_line
           [ request_line "GET" "/"; "Host: pico" +:+ CRLF ] world_init).
  - repeat constructor; discriminate.
  - repeat constructor.
    + intros _. exists "GET", "/", [ "HTTP/1.1" +:+ CRLF ]. reflexivity.
    + discriminate.
Defined.

(** X16.  A line that contains the marker but no space ends the connection
    handler with [IndexError] at [req_type[1]], before any route is looked
    up: no response is written, and the connection pin stays toggled. *)
Theorem handle_client_marker_without_space
    (pre rest : list string) (l : string) (w : World) :
  Forall (fun x => x <> CRLF /\ Py.contains "HTTP/1.1" x = false) pre ->
  Py.contains "HTTP/1.1" l = true ->
  ~ In " "%char (chars l) ->
  handle_client (pre ++ l :: rest) w =
    Some (Raise IndexError,
          {| self := self w; pins := pin_toggle http_connection_led (pins w) |}).
Proof.
  intros Hpre Hc Hl. unfold handle_client.
  destruct (read_request_prefix pre (l :: rest)) with (m := "") (p := "")
    as (m' & p' & Hrun & _).
  - eapply Forall_impl; [exact Hpre | intros x [Hx _]; exact Hx].
  - eapply Forall_impl; [exact Hpre | intros x [_ Hx] Hc'; congruence].
  - rewrite Hrun. cbn [read_request]. rewrite Hc, (split_no_sep " " l Hl).
    reflexivity.
Qed.

Lemma handle_client_marker_without_space_witness :
  handle_client ([ "Host: pico" +:+ CRLF ] ++ ("HTTP/1.1" +:+ CRLF) :: [ CRLF ])
    world_init =
    Some (Raise IndexError,
          {| self := self world_init;
             pins := pin_toggle http_connection_led (pins world_init) |}).
Proof.
  apply (handle_client_marker_without_space
           [ "Host: pico" +:+ CRLF ] [ CRLF ] ("HTTP/1.1" +:+ CRLF) world_init).
  - repeat constructor; discriminate.
  - reflexivity.
  - simpl. intros H. repeat (destruct H as [H|H]; [discriminate H|]). exact H.
Defined.

Lemma read_request_no_space (lines : list string) :
  forall m0 p0 m p,
    ~ In " "%char (chars m0) -> ~ In " "%char (chars p0) ->
    read_request lines m0 p0 = Parsed m p ->
    ~ In " "%char (chars m) /\ ~ In " "%char (chars p).
Proof.
  induction lines as [|req rest IH]; intros m0 p0 m p Hm0 Hp0 H; [discriminate H|].
  cbn [read_request] in H.
  destruct (Py.contains "HTTP/1.1" req).
  - pose proof (split_fields_no_sep " " req) as Hf.
    destruct (Py.split " " req) as [|x [|y fs]]; try discriminate H.
    apply Forall_cons in Hf as [Hx Hf]. apply Forall_cons in Hf as [Hy _].
    change (Py.subscript (x :: y :: fs) 0) with (Ok x : result string) in H.
    change (Py.subscript (x :: y :: fs) 1) with (Ok y : result string) in H.
    cbv beta iota in H.
    destruct (String.eqb req CRLF).
    + injection H as <- <-. split; assumption.
    + apply (IH x y m p Hx Hy H).
  - destruct (String.eqb req CRLF).
    + injection H as <- <-. split; assumption.
    + apply (IH m0 p0 m p Hm0 Hp0 H).
Qed.

(** X17.  Whatever the client sends, the method and the path handed to the
    router contain no space character. *)
Theorem routed_path_has_no_space (lines : list string) (method path : string) :
  read_request lines "" "" = Parsed method path ->
  ~ In " "%char (chars method) /\ ~ In " "%char (chars path).
Proof.
  apply read_request_no_space; intros [].
Qed.

Lemma routed_path_has_no_space_witness :
  ~ In " "%char (chars "GET") /\ ~ In " "%char (chars "").
Proof.
  apply (routed_path_has_no_space [ "GET  / HTTP/1.1" +:+ CRLF; CRLF ] "GET" "").
  reflexivity.
Defined.

(** ** The two formatters side by side *)

Lemma length_append (a b : string) :
  String.length (a +:+ b) = (String.length a + String.length b)%nat.
Proof.
  induction a as [|c a IH]; [reflexivity|].
  change (String c a +:+ b) with (String c (a +:+ b)).
  simpl String.length. rewrite IH. reflexivity.
Qed.

Lemma format_seconds_suffix (n : Z) :
  (0 <= n < 604800 -> format_seconds " weeks" n = format_seconds " weeks " n) /\
  (604800 <= n -> format_seconds " weeks" n <> format_seconds " weeks " n).
Proof.
  unfold format_seconds, Py.divmod.
  set (k := n / 60 / 60 / 24 / 7).
  assert (Hk : k = n / 604800).
  { unfold k. rewrite !Z.div_div by lia. reflexivity. }
  split; intros Hn.
  - assert (k = 0) as -> by (rewrite Hk; apply Z.div_small; lia).
    reflexivity.
  - assert (H1 : 1 <= k).
    { rewrite Hk. apply Z.div_le_lower_bound; lia. }
    destruct (Z.ltb_spec 0 k) as [_|]; [|lia].
    intros E. apply (f_equal String.length) in E.
    rewrite !length_append in E. simpl String.length in E. lia.
Qed.

(** X18.  Below one week (604800 seconds) [format_times] of
    [src/temperature_logger.py] returns the very string [format_times] of
    [src/main.py] returns; from one week on the two strings always differ. *)
Theorem format_times_agree_below_a_week (s : PicoServer) (idx : nat) (n : Z) :
  thresh_times s !! idx = Some n ->
  (0 <= n < 604800 ->
   TemperatureLogger.format_times idx s = Main.format_times idx s) /\
  (604800 <= n ->
   TemperatureLogger.format_times idx s <> Main.format_times idx s).
Proof.
  intros H. unfold TemperatureLogger.format_times, Main.format_times, Py.subscript.
  rewrite H. destruct (format_seconds_suffix n) as [H1 H2]. split; intros Hn.
  - rewrite (H1 Hn). reflexivity.
  - intros E. injection E as E. exact (H2 Hn E).
Qed.

Lemma format_times_agree_below_a_week_witness :
  (0 <= 90061 < 604800 ->
   TemperatureLogger.format_times 2 (mkPicoServer 0 0 0 0 [0; 0; 90061; 0; 0]) =
   Main.format_times 2 (mkPicoServer 0 0 0 0 [0; 0; 90061; 0; 0])) /\
  (604800 <= 90061 ->
   TemperatureLogger.format_times 2 (mkPicoServer 0 0 0 0 [0; 0; 90061; 0; 0]) <>
   Main.format_times 2 (mkPicoServer 0 0 0 0 [0; 0; 90061; 0; 0])).
Proof.
  apply (format_times_agree_below_a_week
           (mkPicoServer 0 0 0 0 [0; 0; 90061; 0; 0]) 2 90061).
  reflexivity.
Defined.

(** ** Joining the network *)

(** X19.  [wifi_connect] returns at the first poll that reads status 3.  Each
    poll before it toggles the watchdog pin once, so on return that pin
    differs from its level before exactly when the number of failed polls is
    odd, and no other pin has changed; as long as no poll reads 3 the
    function has not returned. *)
Theorem wifi_connect_polls (pre rest : list Z) (h : Pins) :
  Forall (fun st => st <> 3) pre ->
  wifi_connect pre h = None /\
  exists h',
    wifi_connect (pre ++ 3 :: rest) h = Some h' /\
    level watchdog_led h' = xorb (level watchdog_led h) (Nat.odd (length pre)) /\
    forall p, p <> watchdog_led -> level p h' = level p h.
Proof.
  intros H. revert h. induction H as [|st pre Hst _ IH]; intros h.
  - split; [reflexivity|]. exists h. split; [reflexivity|].
    split; [symmetry; apply xorb_false_r | reflexivity].
  - destruct (IH (pin_toggle watchdog_led h)) as (Hnone & h' & Hrun & Hlvl & Hoth).
    change ((st :: pre) ++ 3 :: rest) with (st :: (pre ++ 3 :: rest)).
    cbn [wifi_connect]. destruct (Z.eqb_spec st 3) as [|_]; [contradiction|].
    split; [exact Hnone|]. exists h'. split; [exact Hrun|]. split.
    + rewrite Hlvl, level_pin_toggle_same. simpl length.
      rewrite Nat.odd_succ, <- Nat.negb_odd.
      destruct (level watchdog_led h), (Nat.odd (length pre)); reflexivity.
    + intros p Hp. rewrite (Hoth p Hp).
      apply level_pin_toggle_other. congruence.
Qed.

Lemma wifi_connect_polls_witness :
  wifi_connect [0; 1; 1] pins_init = None /\
  exists h',
    wifi_connect ([0; 1; 1] ++ 3 :: [3]) pins_init = Some h' /\
    level watchdog_led h' =
      xorb (level watchdog_led pins_init) (Nat.odd (length [0; 1; 1])) /\
    forall p, p <> watchdog_led -> level p h' = level p pins_init.
Proof.
  apply (wifi_connect_polls [0; 1; 1] [3] pins_init).
  repeat constructor; discriminate.
Defined.

(** ** What a connection can change *)

(** X20.  A connection that gets an answer, or fails, leaves the server object
    as it found it (latest reading, extrema, counters, heartbeat counter)
    and writes no pin other than the connection pin and the user pin. *)
Theorem handle_client_read_only
    (lines : list string) (w w' : World) (r : result string) :
  handle_client lines w = Some (r, w') ->
  self w' = self w /\
  forall p, p <> http_connection_led -> p <> user_led ->
            level p (pins w') = level p (pins w).
Proof.
  unfold handle_client. destruct (read_request lines "" "") as [m path|e|].
  - intros H. injection H as H. apply (f_equal snd) in H.
    change (snd (r, w')) with w' in H. subst w'.
    set (w1 := {| self := self w; pins := pin_toggle http_connection_led (pins w) |}).
    split.
    + exact (keeps_respond (fun s => s) path w1).
    + intros p H1 H2.
      pose proof (step_frame_pins main_py (Respond path) w1 p) as K.
      unfold step in K. rewrite K by (destruct p; try reflexivity; contradiction).
      apply level_pin_toggle_other. congruence.
  - intros H. injection H as _ <-. split; [reflexivity|].
    intros p H1 H2. apply level_pin_toggle_other. congruence.
  - discriminate.
Qed.

Lemma handle_client_read_only_witness :
  let w' := {| self := self world_init;
               pins := pin_value user_led true
                         (pin_toggle http_connection_led (pins world_init)) |} in
  self w' = self world_init /\
  forall p, p <> http_connection_led -> p <> user_led ->
            level p (pins w') = level p (pins world_init).
Proof.
  cbv zeta.
  apply (handle_client_read_only
           [ request_line "GET" "/method=%22post%22?toggle_led=On"; CRLF ]
           world_init _ (Ok head_200)).
  reflexivity.
Defined.

(** ** The formatter of [src/main.py] on every counter *)

(** X21.  For every counter value from zero up, [format_times] of [src/main.py]
    returns the non-zero ones among the week, day, hour and minute fields
    (successive division by 60, 60, 24 and 7), largest first, then always
    the seconds field, each followed by its unit name, with single spaces
    in between. *)
Theorem Main_format_times_spec (s : PicoServer) (idx : nat) (n : Z) :
  thresh_times s !! idx = Some n ->
  0 <= n ->
  Main.format_times idx s = Ok (spec_format n).
Proof.
  intros H Hn. unfold Main.format_times, Py.subscript. rewrite H.
  rewrite (Main_format_seconds_spec n Hn). reflexivity.
Qed.

Lemma Main_format_times_spec_witness :
  Main.format_times 1 (mkPicoServer 0 0 0 0 [0; 694861; 0; 0; 0]) =
    Ok (spec_format 694861).
Proof.
  apply (Main_format_times_spec (mkPicoServer 0 0 0 0 [0; 694861; 0; 0; 0]) 1 694861).
  - reflexivity.
  - lia.
Defined.
